(** * pyphishnet: a shallow embedding of [pyphishnet/api.py] and
      [pyphishnet/exceptions.py]

    The wrapper is sequential Python: one object with a handful of instance
    attributes, one HTTP call per endpoint method, two error checks and a
    little reshaping of the JSON payload.  The embedding follows that shape:

    - Python values that come out of [response.json()] are the inductive
      [pyval];
    - [str.replace], the only string algorithm of the wrapper, is the
      function [str_replace];
    - exceptions are the inductive [exn], and a method is a function from
      the world before the call to an outcome and the world after it (the
      monad [M]), because an attribute assigned before a [raise] stays
      assigned;
    - the network, [pandas]' constructor and transposition, the formatting
      of compound values and [util.parse_setlist_field] are not code of
      [api.py]: they are variables of the section that holds the methods. *)

From Stdlib Require Import ZArith String Ascii List Bool Lia Floats DecimalString.
Import ListNotations.

Set Warnings "-register-all".

Local Open Scope string_scope.
Local Open Scope Z_scope.

(** ** Python strings *)

Module PyStr.

(** [s.startswith(k)]. *)
Fixpoint startswith (k s : string) : bool :=
  match k, s with
  | EmptyString, _ => true
  | String a k', String b s' => Ascii.eqb a b && startswith k' s'
  | String _ _, EmptyString => false
  end.

(** [k in s]: some suffix of [s] starts with [k]. *)
Fixpoint contains (k s : string) : bool :=
  startswith k s ||
  match s with
  | EmptyString => false
  | String _ s' => contains k s'
  end.

(** [c in s] for one character. *)
Fixpoint has_char (c : ascii) (s : string) : bool :=
  match s with
  | EmptyString => false
  | String b s' => Ascii.eqb c b || has_char c s'
  end.

(** No character of [k] is a character of [m]. *)
Fixpoint disjoint_chars (k m : string) : bool :=
  match k with
  | EmptyString => true
  | String a k' => negb (has_char a m) && disjoint_chars k' m
  end.

(** [s.replace("", new)]: [new] goes before every character and after
    the last one. *)
Fixpoint replace_empty (new s : string) : string :=
  match s with
  | EmptyString => new
  | String c s' => new ++ String c (replace_empty new s')
  end.

(** The scan of [s.replace(old, new)] for a non-empty [old], left to
    right.  [skip] counts the characters of a match that are still to be
    passed over, so that matches never overlap. *)
Fixpoint replace_scan (old new : string) (skip : nat) (s : string) : string :=
  match s with
  | EmptyString => EmptyString
  | String c s' =>
      match skip with
      | S n => replace_scan old new n s'
      | O =>
          if startswith old s
          then new ++ replace_scan old new (Nat.pred (String.length old)) s'
          else String c (replace_scan old new O s')
      end
  end.

(** [s.replace(old, new)]. *)
Definition str_replace (old new s : string) : string :=
  match old with
  | EmptyString => replace_empty new s
  | String _ _ => replace_scan old new O s
  end.

(** [s[n:]]. *)
Fixpoint drop (n : nat) (s : string) : string :=
  match n, s with
  | O, _ => s
  | S _, EmptyString => EmptyString
  | S n', String _ s' => drop n' s'
  end.

(** [s[:n]]. *)
Fixpoint take (n : nat) (s : string) : string :=
  match n, s with
  | O, _ => EmptyString
  | S _, EmptyString => EmptyString
  | S n', String c s' => String c (take n' s')
  end.

End PyStr.

(** ** Python values *)

(** What [json.loads] can return.  A [dict] keeps its insertion order, so
    it is an association list; a lookup takes the first binding of a key. *)
Inductive pyval : Type :=
| PNone
| PBool (b : bool)
| PInt (z : Z)
| PFloat (f : float)
| PStr (s : string)
| PList (l : list pyval)
| PDict (d : list (string * pyval)).

Definition pydict := list (string * pyval).

(** ** Exceptions *)

(** [ApiKeyError] and [ResponseError] are the two classes of
    [exceptions.py]; both store their argument in [message].  The others
    are raised by [requests] or by the interpreter. *)
Inductive exn : Type :=
| ApiKeyError (message : string)
| ResponseError (message : string)
| HTTPError (status : Z)
| RequestException (detail : string)
| JSONDecodeError
| AttributeError (name : string)
| KeyError (key : string)
| TypeError (detail : string)
| ValueError (detail : string).

(** The exceptions [exceptions.py] defines. *)
Definition wrapper_defined (e : exn) : bool :=
  match e with
  | ApiKeyError _ | ResponseError _ => true
  | _ => false
  end.

Definition is_ResponseError (e : exn) : bool :=
  match e with
  | ResponseError _ => true
  | _ => false
  end.

Inductive outcome (A : Type) : Type :=
| Return (a : A)
| Raise (e : exn).
Arguments Return {A} a.
Arguments Raise {A} e.

Module Py.

(** [d.get(key)] on an association list. *)
Fixpoint lookup (key : string) (d : pydict) : option pyval :=
  match d with
  | [] => None
  | (k, v) :: d' => if String.eqb k key then Some v else lookup key d'
  end.

(** [d[key] = v]: an existing key keeps its place. *)
Fixpoint setitem (key : string) (v : pyval) (d : pydict) : pydict :=
  match d with
  | [] => [(key, v)]
  | (k, v') :: d' =>
      if String.eqb k key then (k, v) :: d' else (k, v') :: setitem key v d'
  end.

(** [x.get(key)]: [None] for an absent key, [AttributeError] when [x] is
    not a [dict] ([None], a [list] and the scalars have no [get]). *)
Definition get (x : pyval) (key : string) : outcome pyval :=
  match x with
  | PDict d =>
      match lookup key d with
      | Some v => Return v
      | None => Return PNone
      end
  | _ => Raise (AttributeError "get")
  end.

(** [d[key]] on a payload. *)
Definition getitem (d : pydict) (key : string) : outcome pyval :=
  match lookup key d with
  | Some v => Return v
  | None => Raise (KeyError key)
  end.

(** [x != 0].  [False == 0] and [0.0 == 0] in Python; a value of any
    other type differs from [0]. *)
Definition ne_zero (x : pyval) : bool :=
  match x with
  | PBool b => b
  | PInt z => negb (z =? 0)
  | PFloat f => negb (PrimFloat.eqb f 0%float)
  | _ => true
  end.

(** [x >= 300].  A [bool] compares as [0] or [1]; ordering a value that
    is not a number against an [int] is a [TypeError]. *)
Definition ge_300 (x : pyval) : outcome bool :=
  match x with
  | PBool b => Return (300 <=? Z.b2z b)
  | PInt z => Return (300 <=? z)
  | PFloat f => Return (PrimFloat.leb 300%float f)
  | _ => Raise (TypeError ">=")
  end.

Definition str_of_int (z : Z) : string :=
  NilZero.string_of_int (Z.to_int z).

End Py.

(** ** Data frames *)

(** The spec's data model: deserialized JSON reshaped into rows, where a
    field is present or absent.  A frame is the list of its rows in index
    order; a row carries its index label and its cells by column label.  A
    column exists when some row has a cell for it, and a cell that pandas
    would show as [NaN] for want of data is an absent one. *)
Inductive Label : Type :=
| LInt (z : Z)
| LStr (s : string).

Definition Row := list (Label * pyval).

Definition DataFrame := list (Label * Row).

Module Frame.

Definition label_eqb (a b : Label) : bool :=
  match a, b with
  | LInt x, LInt y => x =? y
  | LStr x, LStr y => String.eqb x y
  | _, _ => false
  end.

Fixpoint row_lookup (c : Label) (r : Row) : option pyval :=
  match r with
  | [] => None
  | (k, v) :: r' => if label_eqb k c then Some v else row_lookup c r'
  end.

Fixpoint row_set (c : Label) (v : pyval) (r : Row) : Row :=
  match r with
  | [] => [(c, v)]
  | (k, v') :: r' =>
      if label_eqb k c then (k, v) :: r' else (k, v') :: row_set c v r'
  end.

(** The cell of column [c], [NaN] where the row has none. *)
Definition cell (c : Label) (r : Row) : pyval :=
  match row_lookup c r with
  | Some v => v
  | None => PFloat nan
  end.

Definition has_column (c : Label) (df : DataFrame) : bool :=
  existsb (fun lr => match row_lookup c (snd lr) with Some _ => true | None => false end) df.

(** [pd.DataFrame()]. *)
Definition new : DataFrame := [].

(** [df.empty]: one of the two axes has length zero, that is, there is no
    row or no row has a cell. *)
Definition empty (df : DataFrame) : bool :=
  forallb (fun lr => match snd lr with [] => true | _ :: _ => false end) df.

(** The labels [start, start + 1, ...] of a fresh [RangeIndex]. *)
Fixpoint relabel (start : Z) (rows : list Row) : DataFrame :=
  match rows with
  | [] => []
  | r :: rows' => (LInt start, r) :: relabel (start + 1) rows'
  end.

(** [pd.concat(frames, ignore_index=True)]: the rows of the frames, one
    frame after the other, under a fresh index.  pandas gives every column
    of the result one type and fills the cells of a column that a frame
    lacks, so that a row need not stand in the result as it stood in its
    frame (an [int] turns into a [float] in a column another frame has
    not): [retype frames row] is the row [row] as the concatenation of
    [frames] holds it. *)
Definition concat_ignore_index (retype : list DataFrame -> Row -> Row)
  (frames : list DataFrame) : DataFrame :=
  relabel 0 (map (retype frames) (map snd (List.concat frames))).

(** [a.append(b)] (pandas before 2.0): the rows of [a], then those of [b],
    each with the label it had.  The deprecation notice that pandas 1.4
    and 1.5 send out on every call is a warning of the library, not of the
    wrapper, and is not recorded (see [warned]). *)
Definition append (a b : DataFrame) : DataFrame := (a ++ b)%list.

(** [df.iterrows()]: the pairs [(label, row)] in index order. *)
Definition iterrows (df : DataFrame) : list (Label * Row) := df.

(** [row.name] for a row of the frame [df]: the cell when [df] has the
    column, [AttributeError] otherwise. *)
Definition getattr (df : DataFrame) (r : Row) (name : string) : outcome pyval :=
  if has_column (LStr name) df
  then Return (cell (LStr name) r)
  else Raise (AttributeError name).

(** [df[name]]: the column as the list of its cells, [KeyError] when the
    frame has no such column. *)
Definition getcolumn (df : DataFrame) (name : string) : outcome (list pyval) :=
  if has_column (LStr name) df
  then Return (map (fun lr => cell (LStr name) (snd lr)) df)
  else Raise (KeyError name).

(** [series.apply(f)]: [f] on every cell in order; the first exception
    ends it. *)
Fixpoint apply (f : pyval -> outcome pyval) (cells : list pyval) : outcome (list pyval) :=
  match cells with
  | [] => Return []
  | v :: cells' =>
      match f v with
      | Raise e => Raise e
      | Return v' =>
          match apply f cells' with
          | Raise e => Raise e
          | Return vs => Return (v' :: vs)
          end
      end
  end.

(** [df[name] = series] for a series computed from [df] itself, so that
    the two have the same index. *)
Fixpoint setcolumn (name : string) (cells : list pyval) (df : DataFrame) : DataFrame :=
  match df, cells with
  | (l, r) :: df', v :: cells' => (l, row_set (LStr name) v r) :: setcolumn name cells' df'
  | _, _ => df
  end.

End Frame.

(** ** The world of a call *)

(** What [requests.request(method, url, params=payload)] is given. *)
Record Request : Type := mkRequest {
  req_method : string;
  req_url : string;
  req_params : pydict
}.

(** What the wrapper reads of a [requests.Response]: [status_code], [url]
    and the result of [json()], which raises when the body is not JSON. *)
Record Response : Type := mkResponse {
  status_code : Z;
  url : string;
  json : outcome pyval
}.

(** The instance attributes.  Those assigned only inside some method are
    absent until then. *)
Record PhishNetAPI : Type := mkPhishNetAPI {
  _api_key : string;
  _base_url : string;
  _request_limit : Z;
  has_api_key : bool;
  endpoint_ : option string;
  url_ : option string;
  query_string_ : option string;
  null_setlists : option (list pyval)
}.

(** The object, the requests sent so far (oldest first), the warnings
    the wrapper has issued through its own call of [warnings.warn] (what
    a library it calls may warn of is not recorded) and the lines
    printed. *)
Record World : Type := mkWorld {
  self : PhishNetAPI;
  sent : list Request;
  warned : list string;
  printed : list string
}.

Definition set_endpoint_ (v : string) (o : PhishNetAPI) : PhishNetAPI :=
  mkPhishNetAPI (_api_key o) (_base_url o) (_request_limit o) (has_api_key o)
    (Some v) (url_ o) (query_string_ o) (null_setlists o).

Definition set_url_ (v : string) (o : PhishNetAPI) : PhishNetAPI :=
  mkPhishNetAPI (_api_key o) (_base_url o) (_request_limit o) (has_api_key o)
    (endpoint_ o) (Some v) (query_string_ o) (null_setlists o).

Definition set_query_string_ (v : string) (o : PhishNetAPI) : PhishNetAPI :=
  mkPhishNetAPI (_api_key o) (_base_url o) (_request_limit o) (has_api_key o)
    (endpoint_ o) (url_ o) (Some v) (null_setlists o).

Definition set_null_setlists (v : list pyval) (o : PhishNetAPI) : PhishNetAPI :=
  mkPhishNetAPI (_api_key o) (_base_url o) (_request_limit o) (has_api_key o)
    (endpoint_ o) (url_ o) (query_string_ o) (Some v).

(** ** The monad of a method: exceptions over the world *)

Definition M (A : Type) : Type := World -> outcome A * World.

Definition ret {A : Type} (a : A) : M A := fun w => (Return a, w).

Definition bind {A B : Type} (m : M A) (k : A -> M B) : M B :=
  fun w =>
    match m w with
    | (Return a, w') => k a w'
    | (Raise e, w') => (Raise e, w')
    end.

(** A computation that touches no attribute. *)
Definition lift {A : Type} (o : outcome A) : M A := fun w => (o, w).

Definition get_self : M PhishNetAPI := fun w => (Return (self w), w).

Definition modify_self (f : PhishNetAPI -> PhishNetAPI) : M unit :=
  fun w => (Return tt, mkWorld (f (self w)) (sent w) (warned w) (printed w)).

Definition warnings_warn (message : string) : M unit :=
  fun w => (Return tt, mkWorld (self w) (sent w) (warned w ++ [message]) (printed w)).

Definition print (line : string) : M unit :=
  fun w => (Return tt, mkWorld (self w) (sent w) (warned w) (printed w ++ [line])).

Definition obind {A B : Type} (o : outcome A) (k : A -> outcome B) : outcome B :=
  match o with
  | Return a => k a
  | Raise e => Raise e
  end.

Definition omap {A B : Type} (f : A -> B) (o : outcome A) : outcome B :=
  match o with
  | Return a => Return (f a)
  | Raise e => Raise e
  end.

Declare Scope py_scope.
Delimit Scope py_scope with py.

Notation "x <- m ;; k" := (bind m (fun x => k))
  (at level 100, m at next level, right associativity) : py_scope.
Notation "m ;; k" := (bind m (fun _ => k))
  (at level 100, right associativity) : py_scope.
Notation "x <~ o ;; k" := (obind o (fun x => k))
  (at level 100, o at next level, right associativity) : py_scope.

Local Open Scope py_scope.

(** [[f(x) for x in xs]] with the effects of each call in order. *)
Fixpoint mapM {A B : Type} (f : A -> M B) (xs : list A) : M (list B) :=
  match xs with
  | [] => ret []
  | x :: xs' => y <- f x ;; ys <- mapM f xs' ;; ret (y :: ys)
  end.

(** [range(start, stop)]. *)
Definition py_range (start stop : Z) : list Z :=
  map (fun i => start + Z.of_nat i) (seq 0 (Z.to_nat (stop - start))).

(** ** [requests] *)

(** [requests.codes.ok]. *)
Definition codes_ok : Z := 200.

(** [Response.raise_for_status()] of [requests]: an [HTTPError] for a
    client error (4xx) or a server error (5xx), nothing otherwise. *)
Definition raise_for_status (response : Response) : outcome unit :=
  if (400 <=? status_code response) && (status_code response <? 600)
  then Raise (HTTPError (status_code response))
  else Return tt.

(** ** [PhishNetAPI] *)

(** [PhishNetAPI()]: the constructor reads [os.environ], here [environ]. *)
Definition __init__ (environ : string -> option string) : outcome PhishNetAPI :=
  match environ "PHISH_API_KEY" with
  | None =>
      Raise (ApiKeyError ("No API key found. Check your environment"
                            ++ "variables and try again."))
  | Some key =>
      Return (mkPhishNetAPI key "https://api.phish.net/v3" 120 true
                None None None None)
  end.

(** The text that stands for the key in the saved attributes. *)
Definition mask : string := "<<apikey>>".

Definition _is_ok_response (response : Response) : outcome unit :=
  if status_code response =? codes_ok
  then Return tt
  else raise_for_status response.

Definition _add_api_key_to_query_params (o : PhishNetAPI) : pydict :=
  let payload := [] in
  let payload := Py.setitem "apikey" (PStr (_api_key o)) payload in
  payload.

(** [text.replace(old, new)] where [old] comes out of the payload:
    [str.replace] wants a [str]. *)
Definition replace_value (old : pyval) (new text : string) : outcome string :=
  match old with
  | PStr k => Return (PyStr.str_replace k new text)
  | _ => Raise (TypeError "replace")
  end.

Definition _mask_api_key_from_url (response : Response) (payload : pydict)
  : outcome string :=
  key <~ Py.getitem payload "apikey" ;;
  replace_value key mask (url response).

Definition _mask_api_key_from_query_string
  (response : Response) (payload : pydict) (endpoint : string) : outcome string :=
  key <~ Py.getitem payload "apikey" ;;
  masked_url <~ replace_value key mask (url response) ;;
  Return (PyStr.str_replace endpoint "" masked_url).

Definition _append_endpoint (url endpoint : string) : string :=
  url ++ endpoint.

(** ** What a call sends and saves *)

(** The request of each endpoint method, written from the API's
    documentation: the key alone for the venues; the key, the year and the
    ordering for the shows of a year; the key and the show id for a
    setlist. *)
Definition venues_request (o : PhishNetAPI) : Request :=
  mkRequest "GET" (_base_url o ++ "/venues/all")
    [("apikey", PStr (_api_key o))].

Definition shows_request (o : PhishNetAPI) (year : pyval) : Request :=
  mkRequest "GET" (_base_url o ++ "/shows/query/")
    [("apikey", PStr (_api_key o)); ("year", year); ("order", PStr "ASC")].

Definition setlist_request (o : PhishNetAPI) (showid : pyval) : Request :=
  mkRequest "GET" (_base_url o ++ "/setlists/get")
    [("apikey", PStr (_api_key o)); ("showid", showid)].

(** The URL of a response with the key masked, and the same with the
    endpoint taken out. *)
Definition masked_url (o : PhishNetAPI) (r : Response) : string :=
  PyStr.str_replace (_api_key o) mask (url r).

Definition masked_query_string (o : PhishNetAPI) (endpoint : string) (r : Response)
  : string :=
  PyStr.str_replace endpoint "" (masked_url o r).

(** A key the masking can hide: not empty, and with no character of the
    mask. *)
Definition maskable (key : string) : bool :=
  negb (String.eqb key "") && PyStr.disjoint_chars key mask.

(** [a] and [b] agree as far as both go: one begins with the other. *)
Definition agree (a b : string) : bool :=
  PyStr.startswith a b || PyStr.startswith b a.

(** [p] holds of one of the non-empty ends of [s]. *)
Fixpoint any_end (p : string -> bool) (s : string) : bool :=
  match s with
  | EmptyString => false
  | String _ s' => p s || any_end p s'
  end.

(** The key can be laid over the mask beginning inside the mask: from
    some character of the mask on, the two agree as far as both go (the
    key ["key"] in ["<<apikey>>"], or a key that begins [">>"]). *)
Definition begins_in_mask (key : string) : bool :=
  any_end (agree key) mask.

(** [k] begins at one of the first [n] places of [s]. *)
Fixpoint begins_within (n : nat) (k s : string) : bool :=
  match n, s with
  | S n', String _ s' => PyStr.startswith k s || begins_within n' k s'
  | _, _ => false
  end.

(** The mask can be laid over the key beginning at place [n] of the key:
    from there on the two agree as far as both go, and the [n] characters
    before can stand in front of the key without the key beginning among
    them, so that a scan from left to right passes them and replaces the
    key behind them (the key ["x<"] at place 1, found in ["xx<"]; not the
    key ["<a<"] at place 2, since ["<a<a<"] has the key at its start). *)
Definition runs_into_mask_at (key : string) (n : nat) : bool :=
  agree (PyStr.drop n key) mask
  && negb (begins_within n key (PyStr.take n key ++ key)).

(** The mask can be laid over the key beginning after the first character
    of the key and before its end (a key that ends in ["<"] or in
    ["<<api"], or one that contains the mask). *)
Definition runs_into_mask (key : string) : bool :=
  existsb (runs_into_mask_at key) (seq 1 (String.length key - 1)).

(** A key the masking hides in every URL: not empty, and not to be laid
    over the mask in either way. *)
Definition hideable (key : string) : bool :=
  negb (String.eqb key "") && negb (begins_in_mask key) && negb (runs_into_mask key).

(** [text] has the endpoint nowhere, or at its start and nowhere else. *)
Definition at_most_leading (endpoint text : string) : bool :=
  negb (PyStr.contains endpoint text)
  || (PyStr.startswith endpoint text
      && negb (PyStr.contains endpoint (PyStr.drop (String.length endpoint) text))).

(** The saved URL, when there is one, does not show the key. *)
Definition key_hidden (o : PhishNetAPI) : Prop :=
  forall text, url_ o = Some text -> PyStr.contains (_api_key o) text = false.

(** The world after the request [rq] was answered by [resp]: the endpoint
    is saved and the request logged in any case, the two masked texts only
    when there is a response. *)
Definition saved (rq : Request) (resp : outcome Response) (w : World) : World :=
  let o := set_endpoint_ (req_url rq) (self w) in
  let o :=
    match resp with
    | Return r =>
        set_query_string_ (masked_query_string (self w) (req_url rq) r)
          (set_url_ (masked_url (self w) r) o)
    | Raise _ => o
    end in
  mkWorld o (sent w ++ [rq]) (warned w) (printed w).

(** The text of the warning of [get_shows_by_year], given the year as
    the f-string prints it. *)
Definition cutoff_warning (year_text : string) : string :=
  "The year " ++ year_text ++ " has 300 or more shows, this API query is missing data.".

(** The status codes [raise_for_status] raises for, and the 2xx codes. *)
Definition http_error_code (status : Z) : bool :=
  (400 <=? status) && (status <? 600).

Definition success_code (status : Z) : bool :=
  (200 <=? status) && (status <? 300).

(** ** Sample surroundings *)

(** Concrete stand-ins for what the methods take from outside, on which
    the statements below are run. *)
Module Sample.

(** A key of the form Phish.net issues, and one that is also a word of
    the URL. *)
Definition key : string := "4F1A9C33E2B07D58A6C1".

Definition environ (value : option string) (name : string) : option string :=
  if String.eqb name "PHISH_API_KEY" then value else None.

Definition api (k : string) : PhishNetAPI :=
  mkPhishNetAPI k "https://api.phish.net/v3" 120 true None None None None.

Definition world (k : string) : World := mkWorld (api k) [] [] [].

Definition render (v : pyval) : string :=
  match v with
  | PStr s => s
  | PInt z => Py.str_of_int z
  | _ => ""
  end.

Fixpoint urlencode (params : pydict) : string :=
  match params with
  | [] => ""
  | (k, v) :: [] => k ++ "=" ++ render v
  | (k, v) :: rest => k ++ "=" ++ render v ++ "&" ++ urlencode rest
  end.

(** The URL [requests] builds for a request. *)
Definition url_of (rq : Request) : string :=
  req_url rq ++ "?" ++ urlencode (req_params rq).

(** A server that answers every request with one status and one body. *)
Definition answer (status : Z) (body : outcome pyval)
  : list Request -> Request -> outcome Response :=
  fun _ rq => Return (mkResponse status (url_of rq) body).

(** A server that cannot be reached. *)
Definition unreachable : list Request -> Request -> outcome Response :=
  fun _ _ => Raise (RequestException "connection refused").

Definition inner (count data : pyval) : pydict :=
  [("count", count); ("data", data)].

Definition body (error_code : pyval) (error_message : pyval) (count : pyval)
  (data : pyval) : pyval :=
  PDict [("error_code", error_code); ("error_message", error_message);
         ("response", PDict (inner count data))].

Definition py_repr (v : pyval) : string := "<object>".

Definition fields (v : pyval) : Row :=
  match v with
  | PDict d => map (fun kv => (LStr (fst kv), snd kv)) d
  | _ => []
  end.

(** Transposition of a frame whose rows all have the same columns, those
    of the first row. *)
Definition transpose (df : DataFrame) : DataFrame :=
  match df with
  | [] => []
  | (_, r) :: _ =>
      map (fun cv => (fst cv, map (fun lr => (fst lr, Frame.cell (fst cv) (snd lr))) df)) r
  end.

(** [pd.DataFrame] on the shapes the service sends: nothing, a list of
    records, or records keyed by an id (one column each). *)
Definition pd_DataFrame (data : pyval) : outcome DataFrame :=
  match data with
  | PNone => Return []
  | PList records => Return (Frame.relabel 0 (map fields records))
  | PDict keyed => Return (transpose (map (fun kv => (LStr (fst kv), fields (snd kv))) keyed))
  | _ => Raise (ValueError "DataFrame constructor not properly called!")
  end.

Definition parse_setlist_field (v : pyval) : outcome pyval :=
  match v with
  | PStr s => Return (PStr (PyStr.str_replace "<p>" "" s))
  | _ => Raise (TypeError "expected string")
  end.

Definition show (showid : Z) : pyval :=
  PDict [("showid", PInt showid); ("showdate", PStr "1997-11-17")].

Definition setlist (showid : Z) : pyval :=
  PDict [("showid", PInt showid); ("setlistdata", PStr "<p>Tweezer")].

(** A server for [/setlists/get] that has a setlist for every show but
    show 2. *)
Definition setlists : list Request -> Request -> outcome Response :=
  fun _ rq =>
    let data :=
      match Py.lookup "showid" (req_params rq) with
      | Some (PInt 2) => PList []
      | Some (PInt z) => PList [setlist z]
      | _ => PList []
      end in
    Return (mkResponse 200 (url_of rq) (Return (body (PInt 0) (PStr "") (PInt 1) data))).

(** The same without the gap. *)
Definition full_setlists : list Request -> Request -> outcome Response :=
  fun _ rq =>
    let data :=
      match Py.lookup "showid" (req_params rq) with
      | Some (PInt z) => PList [setlist z]
      | _ => PList []
      end in
    Return (mkResponse 200 (url_of rq) (Return (body (PInt 0) (PStr "") (PInt 1) data))).

(** Bodies as the service sends them. *)
Definition invalid_key_body : pyval :=
  body (PInt 2) (PStr "Invalid API key") (PInt 0) PNone.

Definition venues : pyval :=
  PDict [("7", PDict [("venueid", PInt 7); ("name", PStr "The Gorge")]);
         ("9", PDict [("venueid", PInt 9); ("name", PStr "Hampton Coliseum")])].

Definition venues_body : pyval := body (PInt 0) PNone (PInt 2) venues.

Definition shows : pyval := PList [show 5; show 6].

Definition shows_body (count : Z) : pyval :=
  body (PInt 0) PNone (PInt count) shows.

Definition three_shows : DataFrame :=
  Frame.relabel 0 (map fields [show 1; show 2; show 3]).

(** A body without [error_code], and one whose count is [null]. *)
Definition no_code_body : pyval :=
  PDict [("error_message", PStr "Rate limit"); ("response", PDict (inner (PInt 0) PNone))].

Definition uncounted_body : pyval := body (PInt 0) PNone PNone shows.

(** A server for [/shows/query/] that cannot be reached for one year. *)
Definition down_in (year : Z) : list Request -> Request -> outcome Response :=
  fun _ rq =>
    match Py.lookup "year" (req_params rq) with
    | Some (PInt y) =>
        if y =? year
        then Raise (RequestException "connection refused")
        else Return (mkResponse 200 (url_of rq) (Return (shows_body 2)))
    | _ => Return (mkResponse 200 (url_of rq) (Return (shows_body 2)))
    end.

(** A frame of venues: rows, but no [showid]. *)
Definition venue_rows : DataFrame :=
  Frame.relabel 0 (map fields [PDict [("venueid", PInt 7)]; PDict [("venueid", PInt 9)]]).

(** A server for [/setlists/get] whose setlist of show 2 has no
    [setlistdata]. *)
Definition bare_setlists : list Request -> Request -> outcome Response :=
  fun _ rq =>
    let data :=
      match Py.lookup "showid" (req_params rq) with
      | Some (PInt 2) => PList [show 2]
      | Some (PInt z) => PList [setlist z]
      | _ => PList []
      end in
    Return (mkResponse 200 (url_of rq) (Return (body (PInt 0) (PStr "") (PInt 1) data))).

(** A server whose answer comes from another URL, without the query. *)
Definition moved : list Request -> Request -> outcome Response :=
  fun _ _ => Return (mkResponse 200 "https://phish.net/api/venues" (Return venues_body)).

(** Frames that agree in their columns and types: nothing to re-type. *)
Definition pd_retype (frames : list DataFrame) (row : Row) : Row := row.

(** A server whose answer comes from the URL [u]. *)
Definition from (u : string) : list Request -> Request -> outcome Response :=
  fun _ _ => Return (mkResponse 200 u (Return venues_body)).

End Sample.

Section Wrapper.

(** The network: the response, or the exception of [requests.request], to
    a request, given the requests sent before it. *)
Variable requests_request : list Request -> Request -> outcome Response.

(** [str(x)] for the values whose text the interpreter builds by rules of
    its own: floats, lists and dicts. *)
Variable py_repr : pyval -> string.

(** [pd.DataFrame(data)] and [DataFrame.transpose()]. *)
Variable pd_DataFrame : pyval -> outcome DataFrame.
Variable transpose : DataFrame -> DataFrame.

(** What [pd.concat] does to a row of one of the frames it is given (see
    [Frame.concat_ignore_index]). *)
Variable pd_retype : list DataFrame -> Row -> Row.

(** [util.parse_setlist_field], which cleans the text of one
    [setlistdata] cell. *)
Variable parse_setlist_field : pyval -> outcome pyval.

(** [datetime.datetime.now().year]. *)
Variable now_year : Z.

(** [f"{x}"]. *)
Definition format (x : pyval) : string :=
  match x with
  | PNone => "None"
  | PBool true => "True"
  | PBool false => "False"
  | PInt z => Py.str_of_int z
  | PStr s => s
  | _ => py_repr x
  end.

Definition _response_has_error (response : Response) : outcome unit :=
  json_response <~ json response ;;
  error_code <~ Py.get json_response "error_code" ;;
  if Py.ne_zero error_code
  then
    error_code <~ Py.get json_response "error_code" ;;
    error_message <~ Py.get json_response "error_message" ;;
    Raise (ResponseError ("error code " ++ format error_code
                            ++ ": " ++ format error_message))
  else Return tt.

(** [requests.request(method, url, params=payload)]: the request joins the
    log whether or not the call raises. *)
Definition request (method url : string) (payload : pydict) : M Response :=
  fun w =>
    let rq := mkRequest method url payload in
    (requests_request (sent w) rq,
     mkWorld (self w) (sent w ++ [rq]) (warned w) (printed w)).

(** [response.json().get('response').get(field)]. *)
Definition response_field (response : Response) (field : string) : outcome pyval :=
  body <~ json response ;;
  inner <~ Py.get body "response" ;;
  Py.get inner field.

Definition get_all_venues : M DataFrame :=
  let endpoint := "/venues/all" in
  o <- get_self ;;
  let endpoint_v := _append_endpoint (_base_url o) endpoint in
  modify_self (set_endpoint_ endpoint_v) ;;
  o <- get_self ;;
  let payload := _add_api_key_to_query_params o in
  response <- request "GET" endpoint_v payload ;;
  masked <- lift (_mask_api_key_from_url response payload) ;;
  modify_self (set_url_ masked) ;;
  query_string <- lift (_mask_api_key_from_query_string response payload endpoint_v) ;;
  modify_self (set_query_string_ query_string) ;;
  lift (_is_ok_response response) ;;
  lift (_response_has_error response) ;;
  data <- lift (response_field response "data") ;;
  venues <- lift (pd_DataFrame data) ;;
  ret (transpose venues).

Definition get_shows_by_year (year : pyval) : M DataFrame :=
  let endpoint := "/shows/query/" in
  o <- get_self ;;
  let endpoint_v := _append_endpoint (_base_url o) endpoint in
  modify_self (set_endpoint_ endpoint_v) ;;
  o <- get_self ;;
  let payload := _add_api_key_to_query_params o in
  let payload := Py.setitem "year" year payload in
  let payload := Py.setitem "order" (PStr "ASC") payload in
  response <- request "GET" endpoint_v payload ;;
  masked <- lift (_mask_api_key_from_url response payload) ;;
  modify_self (set_url_ masked) ;;
  query_string <- lift (_mask_api_key_from_query_string response payload endpoint_v) ;;
  modify_self (set_query_string_ query_string) ;;
  lift (_is_ok_response response) ;;
  lift (_response_has_error response) ;;
  count <- lift (response_field response "count") ;;
  cutoff <- lift (Py.ge_300 count) ;;
  (if cutoff : bool
   then warnings_warn ("The year " ++ format year
                         ++ " has 300 or more shows, this API query is missing data.")
   else ret tt) ;;
  data <- lift (response_field response "data") ;;
  year_shows <- lift (pd_DataFrame data) ;;
  ret year_shows.

Fixpoint get_all_shows_loop (years : list Z) (all_shows : DataFrame) : M DataFrame :=
  match years with
  | [] => ret all_shows
  | year :: years' =>
      year_shows <- get_shows_by_year (PInt year) ;;
      get_all_shows_loop years'
        (Frame.concat_ignore_index pd_retype [all_shows; year_shows])
  end.

Definition get_all_shows : M DataFrame :=
  let all_shows := Frame.new in
  get_all_shows_loop (py_range 1983 (now_year + 1)) all_shows.

Definition get_setlist (showid : pyval) : M DataFrame :=
  let endpoint := "/setlists/get" in
  o <- get_self ;;
  let endpoint_v := _append_endpoint (_base_url o) endpoint in
  modify_self (set_endpoint_ endpoint_v) ;;
  o <- get_self ;;
  let payload := _add_api_key_to_query_params o in
  let payload := Py.setitem "showid" showid payload in
  response <- request "GET" endpoint_v payload ;;
  masked <- lift (_mask_api_key_from_url response payload) ;;
  modify_self (set_url_ masked) ;;
  query_string <- lift (_mask_api_key_from_query_string response payload endpoint_v) ;;
  modify_self (set_query_string_ query_string) ;;
  lift (_is_ok_response response) ;;
  lift (_response_has_error response) ;;
  data <- lift (response_field response "data") ;;
  setlist <- lift (pd_DataFrame data) ;;
  ret setlist.

(** The [else] branch of the loop of [get_all_setlists]: the new column
    [setlistdata_clean] from the column [setlistdata]. *)
Definition add_setlistdata_clean (setlist : DataFrame) : outcome DataFrame :=
  setlistdata <~ Frame.getcolumn setlist "setlistdata" ;;
  cleaned <~ Frame.apply parse_setlist_field setlistdata ;;
  Return (Frame.setcolumn "setlistdata_clean" cleaned setlist).

(** The [for] loop of [get_all_setlists] over the rows still to come, with
    the two accumulators. *)
Fixpoint get_all_setlists_loop (all_shows : DataFrame) (rows : list (Label * Row))
  (all_setlists : DataFrame) (null_setlists : list pyval)
  : M (DataFrame * list pyval) :=
  match rows with
  | [] => ret (all_setlists, null_setlists)
  | row :: rows' =>
      showid <- lift (Frame.getattr all_shows (snd row) "showid") ;;
      setlist <- get_setlist showid ;;
      if Frame.empty setlist
      then
        showid <- lift (Frame.getattr all_shows (snd row) "showid") ;;
        get_all_setlists_loop all_shows rows' all_setlists (null_setlists ++ [showid])
      else
        setlist <- lift (add_setlistdata_clean setlist) ;;
        get_all_setlists_loop all_shows rows' (Frame.append all_setlists setlist)
          null_setlists
  end.

Definition get_all_setlists (all_shows : DataFrame) : M DataFrame :=
  let all_setlists := Frame.new in
  let null_setlists := [] in
  acc <- get_all_setlists_loop all_shows (Frame.iterrows all_shows)
           all_setlists null_setlists ;;
  let all_setlists := fst acc in
  let null_setlists := snd acc in
  (if (0 <? Z.of_nat (List.length null_setlists))
   then
     print ("There are " ++ Py.str_of_int (Z.of_nat (List.length null_setlists))
              ++ " shows that do NOT have a setlist populated on Phish.net."
              ++ " These showids are save in the null_setlists attribute. ") ;;
     modify_self (set_null_setlists null_setlists)
   else ret tt) ;;
  ret all_setlists.

(** ** Each endpoint method in one equation *)

(** The checks of every method on a response, in the order of the source. *)
Definition checked (r : Response) : outcome unit :=
  _ <~ _is_ok_response r ;; _response_has_error r.

Definition venues_outcome (resp : outcome Response) : outcome DataFrame :=
  r <~ resp ;;
  _ <~ checked r ;;
  data <~ response_field r "data" ;;
  venues <~ pd_DataFrame data ;;
  Return (transpose venues).

(** Whether [get_shows_by_year] reaches its warning and issues it. *)
Definition shows_cutoff (resp : outcome Response) : outcome bool :=
  r <~ resp ;;
  _ <~ checked r ;;
  count <~ response_field r "count" ;;
  Py.ge_300 count.

Definition shows_outcome (resp : outcome Response) : outcome DataFrame :=
  r <~ resp ;;
  _ <~ shows_cutoff resp ;;
  data <~ response_field r "data" ;;
  pd_DataFrame data.

Definition setlist_outcome (resp : outcome Response) : outcome DataFrame :=
  r <~ resp ;;
  _ <~ checked r ;;
  data <~ response_field r "data" ;;
  pd_DataFrame data.

Definition warn_when (o : outcome bool) (message : string) (w : World) : World :=
  match o with
  | Return true => mkWorld (self w) (sent w) (warned w ++ [message]) (printed w)
  | _ => w
  end.


(** The three endpoint methods under one name, for the statements that
    hold of each of them. *)
Inductive endpoint_method : Type :=
| GetAllVenues
| GetShowsByYear (year : pyval)
| GetSetlist (showid : pyval).

Definition call (m : endpoint_method) : M DataFrame :=
  match m with
  | GetAllVenues => get_all_venues
  | GetShowsByYear year => get_shows_by_year year
  | GetSetlist showid => get_setlist showid
  end.

Definition request_of (o : PhishNetAPI) (m : endpoint_method) : Request :=
  match m with
  | GetAllVenues => venues_request o
  | GetShowsByYear year => shows_request o year
  | GetSetlist showid => setlist_request o showid
  end.

(** The response a call of [m] in the world [w] gets. *)
Definition response_to (m : endpoint_method) (w : World) : outcome Response :=
  requests_request (sent w) (request_of (self w) m).

Definition outcome_of (m : endpoint_method) (resp : outcome Response)
  : outcome DataFrame :=
  match m with
  | GetAllVenues => venues_outcome resp
  | GetShowsByYear _ => shows_outcome resp
  | GetSetlist _ => setlist_outcome resp
  end.

Definition world_after (m : endpoint_method) (resp : outcome Response) (w : World)
  : World :=
  match m with
  | GetShowsByYear year =>
      warn_when (shows_cutoff resp) (cutoff_warning (format year))
        (saved (request_of (self w) m) resp w)
  | _ => saved (request_of (self w) m) resp w
  end.

(** [body.get('error_message')] for a body that is a [dict]. *)
Definition error_message_of (body : pydict) : pyval :=
  match Py.lookup "error_message" body with
  | Some v => v
  | None => PNone
  end.

(** A successful, error-free response of the documented shape: no HTTP
    error status, a JSON object with an [error_code] equal to [0] and an
    object under [response]. *)
Definition error_free (r : Response) (inner : pydict) : Prop :=
  http_error_code (status_code r) = false
  /\ exists (body : pydict) (code : pyval),
       json r = Return (PDict body)
       /\ Py.lookup "error_code" body = Some code
       /\ Py.ne_zero code = false
       /\ Py.lookup "response" body = Some (PDict inner).

(** [[f(x) for x in xs]] for an [f] without effects. *)
Fixpoint traverse {A B : Type} (f : A -> outcome B) (xs : list A) : outcome (list B) :=
  match xs with
  | [] => Return []
  | x :: xs' => y <~ f x ;; ys <~ traverse f xs' ;; Return (y :: ys)
  end.

(** The show ids [get_all_setlists] reads off the rows of [all_shows]. *)
Definition showids_of (all_shows : DataFrame) : outcome (list pyval) :=
  traverse (fun row => Frame.getattr all_shows (snd row) "showid")
    (Frame.iterrows all_shows).

(** Of the shows [showids], fetched as [setlists], those whose setlist is
    empty, and the setlists that are not. *)
Definition skipped (showids : list pyval) (setlists : list DataFrame) : list pyval :=
  map fst (filter (fun p => Frame.empty (snd p)) (combine showids setlists)).

Definition kept (setlists : list DataFrame) : list DataFrame :=
  filter (fun setlist => negb (Frame.empty setlist)) setlists.

Definition null_setlists_notice (n : nat) : string :=
  "There are " ++ Py.str_of_int (Z.of_nat n)
    ++ " shows that do NOT have a setlist populated on Phish.net."
    ++ " These showids are save in the null_setlists attribute. ".

(** The end of [get_all_setlists]: with shows skipped, a line is printed
    and the attribute assigned; with none, nothing happens. *)
Definition record_nulls (nulls : list pyval) (w : World) : World :=
  match nulls with
  | [] => w
  | _ :: _ =>
      mkWorld (set_null_setlists nulls (self w)) (sent w) (warned w)
        (printed w ++ [null_setlists_notice (List.length nulls)])
  end.

(** ** More names for the statements *)

(** The path each method appends to [_base_url]. *)
Definition endpoint_path (m : endpoint_method) : string :=
  match m with
  | GetAllVenues => "/venues/all"
  | GetShowsByYear _ => "/shows/query/"
  | GetSetlist _ => "/setlists/get"
  end.

(** An [int], a [float] or a [bool]: what Python compares with a number
    by value. *)
Definition is_number (x : pyval) : bool :=
  match x with
  | PBool _ | PInt _ | PFloat _ => true
  | _ => false
  end.


(** Every public method of the class, and a program that calls some of
    them one after the other, going on after an exception as a caller
    with [try ... except] would. *)
Inductive public_method : Type :=
| Endpoint (m : endpoint_method)
| GetAllShows
| GetAllSetlists (all_shows : DataFrame).

Definition invoke (p : public_method) : M DataFrame :=
  match p with
  | Endpoint m => call m
  | GetAllShows => get_all_shows
  | GetAllSetlists all_shows => get_all_setlists all_shows
  end.

Definition run_all (program : list public_method) (w : World) : World :=
  fold_left (fun w p => snd (invoke p w)) program w.

(** An occurrence of [k] in [e ++ rest] begins inside [e]. *)
Fixpoint starts_in (k e rest : string) : bool :=
  match e with
  | EmptyString => false
  | String _ e' => PyStr.startswith k (e ++ rest) || starts_in k e' rest
  end.

(** The two facts the invariant of the saved URL needs of a method: it
    keeps the key, and it keeps the saved URL free of it. *)
Definition keeps_key_hidden {A : Type} (action : M A) : Prop :=
  forall w,
    maskable (_api_key (self w)) = true ->
    key_hidden (self w) ->
    _api_key (self (snd (action w))) = _api_key (self w)
    /\ key_hidden (self (snd (action w))).

(** What the loop of [get_all_shows] makes of the frames of the years,
    starting from what it has: one [pd.concat] a year. *)
Definition concat_years (frames : list DataFrame) (all_shows : DataFrame) : DataFrame :=
  fold_left
    (fun all_shows year_shows =>
       Frame.concat_ignore_index pd_retype [all_shows; year_shows])
    frames all_shows.

(** [Retyped row row']: [row'] is [row] as it stands after the
    concatenations it went through, none or more. *)
Inductive Retyped : Row -> Row -> Prop :=
| Retyped_same (row : Row) : Retyped row row
| Retyped_concat (frames : list DataFrame) (row row' : Row) :
    Retyped row row' -> Retyped row (pd_retype frames row').

(** The labels of a fresh index of length [n]. *)
Definition range_index (n : nat) : list Label :=
  map (fun i => LInt (Z.of_nat i)) (seq 0 n).
Lemma get_all_venues_eq (w : World) :
  let rq := venues_request (self w) in
  let resp := requests_request (sent w) rq in
  get_all_venues w = (venues_outcome resp, saved rq resp w).
Proof.
  unfold get_all_venues, venues_outcome, checked, saved, bind, lift, ret,
    get_self, modify_self, request, venues_request; cbn.
  destruct (requests_request _ _) as [r | e]; cbn; [ | reflexivity ].
  destruct (_is_ok_response r) as [ [] | e ]; cbn; [ | reflexivity ].
  destruct (_response_has_error r) as [ [] | e ]; cbn; [ | reflexivity ].
  destruct (response_field r "data") as [ data | e ]; cbn; [ | reflexivity ].
  destruct (pd_DataFrame data); reflexivity.
Qed.

Lemma get_shows_by_year_eq (year : pyval) (w : World) :
  let rq := shows_request (self w) year in
  let resp := requests_request (sent w) rq in
  get_shows_by_year year w =
    (shows_outcome resp,
     warn_when (shows_cutoff resp) (cutoff_warning (format year)) (saved rq resp w)).
Proof.
  unfold get_shows_by_year, shows_outcome, shows_cutoff, checked, saved, warn_when,
    cutoff_warning, bind, lift, ret, get_self, modify_self, warnings_warn, request,
    shows_request; cbn.
  destruct (requests_request _ _) as [r | e]; cbn; [ | reflexivity ].
  destruct (_is_ok_response r) as [ [] | e ]; cbn; [ | reflexivity ].
  destruct (_response_has_error r) as [ [] | e ]; cbn; [ | reflexivity ].
  destruct (response_field r "count") as [ count | e ]; cbn; [ | reflexivity ].
  destruct (Py.ge_300 count) as [ [ | ] | e ]; cbn; try reflexivity;
    destruct (response_field r "data") as [ data | e ]; cbn; try reflexivity;
    destruct (pd_DataFrame data); reflexivity.
Qed.

Lemma get_setlist_eq (showid : pyval) (w : World) :
  let rq := setlist_request (self w) showid in
  let resp := requests_request (sent w) rq in
  get_setlist showid w = (setlist_outcome resp, saved rq resp w).
Proof.
  unfold get_setlist, setlist_outcome, checked, saved, bind, lift, ret,
    get_self, modify_self, request, setlist_request; cbn.
  destruct (requests_request _ _) as [r | e]; cbn; [ | reflexivity ].
  destruct (_is_ok_response r) as [ [] | e ]; cbn; [ | reflexivity ].
  destruct (_response_has_error r) as [ [] | e ]; cbn; [ | reflexivity ].
  destruct (response_field r "data") as [ data | e ]; cbn; [ | reflexivity ].
  destruct (pd_DataFrame data); reflexivity.
Qed.

Lemma get_all_venues_run (w : World) :
  get_all_venues w
  = (venues_outcome (response_to GetAllVenues w),
     world_after GetAllVenues (response_to GetAllVenues w) w).
Proof. exact (get_all_venues_eq w). Qed.

Lemma get_shows_by_year_run (year : pyval) (w : World) :
  get_shows_by_year year w
  = (shows_outcome (response_to (GetShowsByYear year) w),
     world_after (GetShowsByYear year) (response_to (GetShowsByYear year) w) w).
Proof. exact (get_shows_by_year_eq year w). Qed.

Lemma get_setlist_run (showid : pyval) (w : World) :
  get_setlist showid w
  = (setlist_outcome (response_to (GetSetlist showid) w),
     world_after (GetSetlist showid) (response_to (GetSetlist showid) w) w).
Proof. exact (get_setlist_eq showid w). Qed.

Lemma call_eq (m : endpoint_method) (w : World) :
  call m w = (outcome_of m (response_to m w), world_after m (response_to m w) w).
Proof.
  destruct m; cbn [call].
  - apply get_all_venues_run.
  - apply get_shows_by_year_run.
  - apply get_setlist_run.
Qed.

(** The attributes a call leaves alone. *)
Lemma world_after_frame (m : endpoint_method) (resp : outcome Response) (w : World) :
  let w' := world_after m resp w in
  _api_key (self w') = _api_key (self w)
  /\ _base_url (self w') = _base_url (self w)
  /\ null_setlists (self w') = null_setlists (self w)
  /\ printed w' = printed w
  /\ sent w' = (sent w ++ [request_of (self w) m])%list.
Proof.
  destruct m; cbn; unfold warn_when, saved;
    try destruct (shows_cutoff resp) as [ [ | ] | ? ];
    destruct resp; cbn; auto.
Qed.

(** ** Facts about Python strings *)

Lemma startswith_app (a y : string) : PyStr.startswith a (a ++ y) = true.
Proof.
  induction a as [ | c a IH ]; cbn; [ reflexivity | ].
  now rewrite Ascii.eqb_refl, IH.
Qed.

Lemma startswith_app_l (a s y : string) :
  PyStr.startswith a s = true -> PyStr.startswith a (s ++ y) = true.
Proof.
  revert s; induction a as [ | c a IH ]; intros s H; [ reflexivity | ].
  destruct s as [ | d s ]; cbn in *; [ discriminate | ].
  apply andb_true_iff in H as [Hc Hs].
  now rewrite Hc, (IH _ Hs).
Qed.

Lemma contains_app_l (a s y : string) :
  PyStr.contains a s = true -> PyStr.contains a (s ++ y) = true.
Proof.
  induction s as [ | c s IH ]; cbn; intros H.
  - rewrite orb_false_r in H.
    destruct a; [ | discriminate ].
    destruct y; reflexivity.
  - apply orb_true_iff in H as [H | H].
    + change (String c (s ++ y)) with (String c s ++ y).
      now rewrite (startswith_app_l _ _ _ H).
    + rewrite (IH H). apply orb_true_r.
Qed.

Lemma contains_app_r (a x t : string) :
  PyStr.contains a t = true -> PyStr.contains a (x ++ t) = true.
Proof.
  intros H; induction x as [ | c x IH ]; cbn; [ exact H | ].
  rewrite IH. apply orb_true_r.
Qed.

Lemma contains_self_app (a y : string) : PyStr.contains a (a ++ y) = true.
Proof.
  destruct a as [ | c a ]; [ destruct y; reflexivity | ].
  cbn [append PyStr.contains].
  change (String c (a ++ y)) with (String c a ++ y).
  now rewrite startswith_app.
Qed.

Lemma startswith_refl (a : string) : PyStr.startswith a a = true.
Proof. induction a as [ | c a IH ]; cbn; [ | rewrite Ascii.eqb_refl ]; auto. Qed.

Lemma contains_refl (a : string) : PyStr.contains a a = true.
Proof. destruct a; cbn [PyStr.contains]; now rewrite startswith_refl. Qed.

Lemma contains_middle (a x y : string) : PyStr.contains a (x ++ a ++ y) = true.
Proof. apply contains_app_r, contains_self_app. Qed.

Lemma has_char_false_eqb (c d : ascii) (s : string) :
  PyStr.has_char c (String d s) = false -> Ascii.eqb c d = false.
Proof. cbn; intros H; now apply orb_false_iff in H. Qed.

(** An occurrence of [k] cannot begin inside a text that lacks the first
    character of [k]. *)
Lemma contains_skip (k0 : ascii) (k m t : string) :
  PyStr.has_char k0 m = false ->
  PyStr.contains (String k0 k) (m ++ t) = PyStr.contains (String k0 k) t.
Proof.
  induction m as [ | c m IH ]; intros H; [ reflexivity | ].
  cbn in H; apply orb_false_iff in H as [Hc Hm].
  cbn [append PyStr.contains PyStr.startswith].
  now rewrite Hc, (IH Hm).
Qed.

(** A text without the first character of [new] that begins the result
    of the scan begins the scanned text too: up to the first match the
    scan copies. *)
Lemma startswith_scan (old new : string) (n0 : ascii) (u s : string) :
  PyStr.has_char n0 u = false ->
  PyStr.startswith u (PyStr.replace_scan old (String n0 new) O s) = true ->
  PyStr.startswith u s = true.
Proof.
  revert u; induction s as [ | c s IH ]; intros u Hu H.
  - exact H.
  - destruct u as [ | d u ]; [ reflexivity | ].
    cbn in Hu; apply orb_false_iff in Hu as [Hd Hu].
    cbn [PyStr.replace_scan] in H.
    destruct (PyStr.startswith old (String c s)).
    + cbn in H. rewrite Ascii.eqb_sym, Hd in H. discriminate.
    + cbn in H |- *. apply andb_true_iff in H as [Hc H].
      now rewrite Hc, (IH _ Hu H).
Qed.

(** The masking property of [str.replace]: when [old] is not empty, does
    not begin with a character of [new] and lacks the first character of
    [new], the result has no occurrence of [old]. *)
Lemma scan_removes (k0 n0 : ascii) (k new : string) (s : string) (skip : nat) :
  PyStr.has_char k0 (String n0 new) = false ->
  PyStr.has_char n0 (String k0 k) = false ->
  PyStr.contains (String k0 k)
    (PyStr.replace_scan (String k0 k) (String n0 new) skip s) = false.
Proof.
  intros Hk Hn; revert skip; induction s as [ | c s IH ]; intros skip.
  - reflexivity.
  - cbn [PyStr.replace_scan]. destruct skip as [ | n ]; [ | apply IH ].
    destruct (PyStr.startswith (String k0 k) (String c s)) eqn:Hs.
    + rewrite (contains_skip _ _ _ _ Hk). apply IH.
    + cbn [PyStr.contains]. rewrite IH, orb_false_r.
      destruct (PyStr.startswith (String k0 k)
                  (String c (PyStr.replace_scan (String k0 k) (String n0 new) O s)))
        eqn:Hr; [ | reflexivity ].
      rewrite <- Hs. symmetry.
      apply (startswith_scan (String k0 k) new n0); [ exact Hn | ].
      cbn [PyStr.replace_scan]. rewrite Hs. exact Hr.
Qed.

Lemma disjoint_chars_head (k0 : ascii) (k m : string) :
  PyStr.disjoint_chars (String k0 k) m = true -> PyStr.has_char k0 m = false.
Proof. cbn; intros H; apply andb_true_iff in H as [H _]; now apply negb_true_iff. Qed.

Lemma disjoint_chars_lacks (c : ascii) (k m : string) :
  PyStr.disjoint_chars k m = true -> PyStr.has_char c m = true ->
  PyStr.has_char c k = false.
Proof.
  induction k as [ | a k IH ]; cbn; intros H Hc; [ reflexivity | ].
  apply andb_true_iff in H as [Ha Hk]. rewrite (IH Hk Hc), orb_false_r.
  destruct (Ascii.eqb_spec c a) as [-> | ]; [ | reflexivity ].
  rewrite Hc in Ha. discriminate.
Qed.

(** A non-empty key with no character of the mask is gone from the masked
    text. *)
Lemma str_replace_masks (key s : string) :
  key <> "" -> PyStr.disjoint_chars key mask = true ->
  PyStr.contains key (PyStr.str_replace key mask s) = false.
Proof.
  destruct key as [ | k0 k ]; [ congruence | ]; intros _ H.
  unfold PyStr.str_replace, mask. apply scan_removes.
  - exact (disjoint_chars_head _ _ _ H).
  - apply (disjoint_chars_lacks _ _ _ H). reflexivity.
Qed.

(** A text without [old] is left as it is. *)
Lemma scan_absent (old new s : string) :
  PyStr.contains old s = false -> PyStr.replace_scan old new O s = s.
Proof.
  induction s as [ | c s IH ]; [ reflexivity | ].
  cbn [PyStr.contains PyStr.replace_scan]; intros H.
  apply orb_false_iff in H as [Hs Hc]. rewrite Hs. now rewrite (IH Hc).
Qed.

Lemma scan_skip (old new u t : string) :
  PyStr.replace_scan old new (String.length u) (u ++ t)
  = PyStr.replace_scan old new O t.
Proof. induction u as [ | c u IH ]; [ reflexivity | exact IH ]. Qed.

(** A leading match is replaced and the scan goes on behind it. *)
Lemma scan_leading (c : ascii) (old new t : string) :
  PyStr.replace_scan (String c old) new O (String c old ++ t)
  = new ++ PyStr.replace_scan (String c old) new O t.
Proof.
  cbn [append PyStr.replace_scan].
  change (String c (old ++ t)) with (String c old ++ t).
  rewrite startswith_app. cbn [String.length Nat.pred].
  now rewrite scan_skip.
Qed.


(** ** The two checks *)

Lemma is_ok_response_eq (r : Response) :
  _is_ok_response r =
    if http_error_code (status_code r)
    then Raise (HTTPError (status_code r))
    else Return tt.
Proof.
  unfold _is_ok_response, raise_for_status, http_error_code, codes_ok.
  destruct (Z.eqb_spec (status_code r) 200) as [-> | _]; reflexivity.
Qed.

Lemma response_has_error_eq (r : Response) (body : pydict) (code : pyval) :
  json r = Return (PDict body) ->
  Py.lookup "error_code" body = Some code ->
  _response_has_error r =
    if Py.ne_zero code
    then Raise (ResponseError ("error code " ++ format code ++ ": "
                                 ++ format (error_message_of body)))
    else Return tt.
Proof.
  intros Hj Hc. unfold _response_has_error, error_message_of, Py.get.
  rewrite Hj; cbn. rewrite Hc; cbn.
  destruct (Py.ne_zero code); [ | reflexivity ].
  now destruct (Py.lookup "error_message" body).
Qed.

Lemma checked_error_free (r : Response) (inner : pydict) :
  error_free r inner -> checked r = Return tt.
Proof.
  intros (Hs & body & code & Hj & Hc & Hz & _).
  unfold checked. rewrite is_ok_response_eq, Hs; cbn.
  now rewrite (response_has_error_eq _ _ _ Hj Hc), Hz.
Qed.

Lemma response_field_error_free (r : Response) (inner : pydict) (field : string) :
  error_free r inner -> response_field r field = Py.get (PDict inner) field.
Proof.
  intros (_ & body & code & Hj & _ & _ & Hr).
  unfold response_field. rewrite Hj; cbn. now rewrite Hr.
Qed.

(** ** Error handling *)

(** C1, amended.  Take a response whose body is a JSON object with an
    [error_code].  When the code differs from [0], the check
    [_response_has_error] raises a [ResponseError] whose message is
    ["error code <code>: <error_message>"], so that it contains both the
    code and the message of the service, and each endpoint method ends in
    that exception provided the status check before it has let the
    response through; for a status from 400 to 599 the method ends in the
    [HTTPError] of the status check instead.  When the code equals [0] the
    check raises nothing, and the method raises no [ResponseError]
    ([pandas] raising none of its own). *)
Theorem response_error_raised
    (m : endpoint_method) (w : World) (r : Response) (body : pydict)
    (error_code : pyval) :
  response_to m w = Return r ->
  json r = Return (PDict body) ->
  Py.lookup "error_code" body = Some error_code ->
  let message :=
    "error code " ++ format error_code ++ ": " ++ format (error_message_of body) in
  (Py.ne_zero error_code = true ->
     _response_has_error r = Raise (ResponseError message)
     /\ PyStr.contains (format error_code) message = true
     /\ PyStr.contains (format (error_message_of body)) message = true
     /\ (http_error_code (status_code r) = false ->
         fst (call m w) = Raise (ResponseError message))
     /\ (http_error_code (status_code r) = true ->
         fst (call m w) = Raise (HTTPError (status_code r))))
  /\ (Py.ne_zero error_code = false ->
     _response_has_error r = Return tt
     /\ ((forall data text, pd_DataFrame data <> Raise (ResponseError text)) ->
         forall text, fst (call m w) <> Raise (ResponseError text))).
Proof.
  intros Hr Hj Hc message.
  pose proof (response_has_error_eq r body error_code Hj Hc) as He.
  pose proof (is_ok_response_eq r) as Hok.
  rewrite call_eq, Hr. split; intros Hz; rewrite Hz in He.
  - split; [ exact He | ]. split; [ apply contains_middle | ].
    split; [ unfold message; do 3 apply contains_app_r; apply contains_refl | ].
    split; intros Hs; rewrite Hs in Hok;
      destruct m; cbn; unfold venues_outcome, shows_outcome, shows_cutoff,
        setlist_outcome, checked; cbn; rewrite Hok; cbn; try reflexivity;
        now rewrite He.
  - split; [ exact He | ].
    intros Hpd text.
    destruct (http_error_code (status_code r)).
    + destruct m; cbn; unfold venues_outcome, shows_outcome, shows_cutoff,
        setlist_outcome, checked; cbn; rewrite Hok; cbn; discriminate.
    + destruct m; cbn; unfold venues_outcome, shows_outcome, shows_cutoff,
        setlist_outcome, checked, response_field, Py.get; cbn;
        rewrite Hok, He, Hj; cbn;
        destruct (Py.lookup "response" body) as [ [ | | | | | | inner ] | ];
        cbn; try discriminate;
        try (destruct (Py.lookup "count" inner) as [ [ | [ | ] | | | | | ] | ];
             cbn; try discriminate;
             try match goal with |- context [ if ?b then _ else _ ] => destruct b end;
             cbn);
        try (destruct (Py.lookup "data" inner) as [ data | ]; cbn);
        try match goal with
            | |- context [ pd_DataFrame ?d ] =>
                let H := fresh in
                destruct (pd_DataFrame d) eqn:H; cbn;
                [ discriminate | intros E; injection E as ->; exact (Hpd _ _ H) ]
            end.
Qed.

(** C2.  The constructor raises [ApiKeyError] exactly when the
    environment has no variable [PHISH_API_KEY]; it raises nothing else,
    and with the variable set it returns an object that holds the key and
    whose [has_api_key] is [True]. *)
Theorem init_api_key (environ : string -> option string) :
  ((exists message, __init__ environ = Raise (ApiKeyError message))
   <-> environ "PHISH_API_KEY" = None)
  /\ (forall e, __init__ environ = Raise e ->
        environ "PHISH_API_KEY" = None /\ exists message, e = ApiKeyError message)
  /\ (forall key, environ "PHISH_API_KEY" = Some key ->
        exists o, __init__ environ = Return o
                  /\ has_api_key o = true /\ _api_key o = key).
Proof.
  unfold __init__. destruct (environ "PHISH_API_KEY") as [ key | ].
  - repeat split.
    + intros [message H]; discriminate.
    + discriminate.
    + discriminate.
    + discriminate.
    + intros k [= <-]. eexists; repeat split.
  - repeat split.
    + eexists; reflexivity.
    + injection H as <-. eexists; reflexivity.
    + discriminate.
Qed.

(** C3, amended.  For a response whose status is a client or server error
    (400 to 599), each endpoint method ends with the [HTTPError] that
    [raise_for_status] raised, which is not an exception of the wrapper;
    for every other status, the successful ones among them, the status
    check raises nothing. *)
Theorem http_error_propagates (m : endpoint_method) (w : World) (r : Response) :
  response_to m w = Return r ->
  (http_error_code (status_code r) = true ->
     exists e, raise_for_status r = Raise e
               /\ fst (call m w) = Raise e
               /\ wrapper_defined e = false)
  /\ (http_error_code (status_code r) = false -> _is_ok_response r = Return tt)
  /\ (success_code (status_code r) = true -> _is_ok_response r = Return tt).
Proof.
  intros Hr. pose proof (is_ok_response_eq r) as Hok.
  split; [ | split ].
  - intros Hs. rewrite Hs in Hok. exists (HTTPError (status_code r)).
    split; [ | split; [ | reflexivity ] ].
    + unfold raise_for_status. unfold http_error_code in Hs. now rewrite Hs.
    + rewrite call_eq, Hr.
      destruct m; cbn; unfold venues_outcome, shows_outcome, shows_cutoff,
        setlist_outcome, checked; cbn; now rewrite Hok.
  - intros Hs. now rewrite Hs in Hok.
  - intros Hs. replace (http_error_code (status_code r)) with false in Hok;
      [ exact Hok | ].
    unfold success_code in Hs. unfold http_error_code.
    apply andb_true_iff in Hs as [_ Hs]. apply Z.ltb_lt in Hs.
    symmetry. apply andb_false_iff. left. apply Z.leb_gt. lia.
Qed.

(** ** What the methods send and return *)

(** C6.  Each endpoint method sends one [GET] request to its endpoint:
    [get_all_venues] with the key alone, [get_shows_by_year] with the key,
    the year it was given and the ordering ['ASC'], [get_setlist] with the
    key and the show id it was given. *)
Theorem request_parameters (w : World) :
  let key := PStr (_api_key (self w)) in
  let base := _base_url (self w) in
  sent (snd (get_all_venues w))
    = (sent w ++ [mkRequest "GET" (base ++ "/venues/all") [("apikey", key)]])%list
  /\ (forall year,
        sent (snd (get_shows_by_year year w))
        = (sent w ++ [mkRequest "GET" (base ++ "/shows/query/")
                        [("apikey", key); ("year", year); ("order", PStr "ASC")]])%list)
  /\ (forall showid,
        sent (snd (get_setlist showid w))
        = (sent w ++ [mkRequest "GET" (base ++ "/setlists/get")
                        [("apikey", key); ("showid", showid)]])%list).
Proof.
  cbn zeta. split; [ | split ]; intros.
  - rewrite get_all_venues_run. apply (world_after_frame GetAllVenues).
  - rewrite get_shows_by_year_run.
    apply (world_after_frame (GetShowsByYear year)).
  - rewrite get_setlist_run. apply (world_after_frame (GetSetlist showid)).
Qed.

(** C7, amended.  For a successful, error-free response with an object
    under [response], [get_all_venues] returns
    [pd.DataFrame(data).transpose()] and [get_setlist] returns
    [pd.DataFrame(data)] as it is, where [data] is what the response has
    under [response.data].  [get_shows_by_year] compares [response.count]
    with 300 first: it returns [pd.DataFrame(data)] as it is when the
    count is a number, and raises [TypeError], returning no frame, when
    the count is missing or is no number. *)
Theorem payload_to_rows (w : World) (r : Response) (inner : pydict) (data : pyval) :
  error_free r inner ->
  Py.get (PDict inner) "data" = Return data ->
  (response_to GetAllVenues w = Return r ->
     fst (get_all_venues w) = omap transpose (pd_DataFrame data))
  /\ (forall year count cutoff,
        response_to (GetShowsByYear year) w = Return r ->
        Py.get (PDict inner) "count" = Return count ->
        Py.ge_300 count = Return cutoff ->
        fst (get_shows_by_year year w) = pd_DataFrame data)
  /\ (forall year count,
        response_to (GetShowsByYear year) w = Return r ->
        Py.get (PDict inner) "count" = Return count ->
        is_number count = false ->
        fst (get_shows_by_year year w) = Raise (TypeError ">="))
  /\ (forall showid,
        response_to (GetSetlist showid) w = Return r ->
        fst (get_setlist showid w) = pd_DataFrame data).
Proof.
  intros Hf Hd.
  pose proof (checked_error_free r inner Hf) as Hc.
  pose proof (response_field_error_free r inner "data" Hf) as Hdata.
  rewrite Hd in Hdata.
  split; [ | split; [ | split ] ].
  - intros Hr. rewrite get_all_venues_run, Hr; cbn.
    unfold venues_outcome; cbn. rewrite Hc, Hdata; cbn.
    now destruct (pd_DataFrame data).
  - intros year count cutoff Hr Hcount Hge.
    rewrite get_shows_by_year_run, Hr; cbn.
    unfold shows_outcome, shows_cutoff; cbn.
    rewrite Hc, (response_field_error_free r inner "count" Hf), Hcount; cbn.
    now rewrite Hge, Hdata.
  - intros year count Hr Hcount Hn.
    rewrite get_shows_by_year_run, Hr; cbn.
    unfold shows_outcome, shows_cutoff; cbn.
    rewrite Hc, (response_field_error_free r inner "count" Hf), Hcount; cbn.
    now destruct count.
  - intros showid Hr. rewrite get_setlist_run, Hr; cbn.
    unfold setlist_outcome; cbn. now rewrite Hc, Hdata.
Qed.

(** C8.  On a successful, error-free response whose [response.count] is
    a number, [get_shows_by_year] issues its warning when the count is at
    least 300 and issues none when it is less; what it returns,
    [pd.DataFrame(data)], does not depend on the count. *)
Theorem cutoff_warning_issued
    (year : pyval) (w : World) (r : Response) (inner : pydict)
    (count data : pyval) (cutoff : bool) :
  response_to (GetShowsByYear year) w = Return r ->
  error_free r inner ->
  Py.get (PDict inner) "count" = Return count ->
  Py.get (PDict inner) "data" = Return data ->
  Py.ge_300 count = Return cutoff ->
  warned (snd (get_shows_by_year year w))
    = (if cutoff
       then (warned w ++ [cutoff_warning (format year)])%list
       else warned w)
  /\ (forall n, count = PInt n -> (cutoff = true <-> 300 <= n))
  /\ fst (get_shows_by_year year w) = pd_DataFrame data.
Proof.
  intros Hr Hf Hcount Hdata Hge.
  pose proof (checked_error_free r inner Hf) as Hc.
  rewrite get_shows_by_year_run, Hr; cbn.
  unfold shows_outcome, shows_cutoff; cbn.
  rewrite Hc, !(response_field_error_free r inner _ Hf), Hcount, Hdata; cbn.
  rewrite Hge; cbn. split; [ | split ].
  - unfold warn_when, saved; now destruct cutoff.
  - intros n ->. cbn in Hge. injection Hge as <-. apply Z.leb_le.
  - reflexivity.
Qed.

(** ** The saved URL *)


Lemma append_nonempty (s t : string) (c : ascii) :
  exists d u, s ++ String c t = String d u.
Proof. destruct s; cbn; eauto. Qed.


Lemma request_url_nonempty (o : PhishNetAPI) (m : endpoint_method) :
  req_url (request_of o m) <> "".
Proof.
  destruct m; cbn;
    match goal with
    | |- (?s ++ String ?c ?t)%string <> _ =>
        destruct (append_nonempty s t c) as (d & u & ->)
    end; discriminate.
Qed.

(** *** Keys that lie over the mask *)






















(** ** All the shows *)

Lemma relabel_rows (start : Z) (rows : list Row) :
  map snd (Frame.relabel start rows) = rows.
Proof.
  revert start; induction rows as [ | r rows IH ]; intros start; cbn;
    [ | rewrite IH ]; reflexivity.
Qed.

Lemma relabel_labels (rows : list Row) :
  forall start,
    map fst (Frame.relabel start rows)
    = map (fun i => LInt (start + Z.of_nat i)) (seq 0 (List.length rows)).
Proof.
  induction rows as [ | r rows IH ]; intros start; [ reflexivity | ].
  cbn [Frame.relabel map fst List.length seq]. f_equal.
  - f_equal. lia.
  - rewrite IH, <- seq_shift, map_map. apply map_ext. intros i. f_equal. lia.
Qed.

Lemma relabel_length (rows : list Row) (start : Z) :
  List.length (Frame.relabel start rows) = List.length rows.
Proof. now rewrite <- (length_map snd), relabel_rows. Qed.

Lemma relabel_range_index (rows : list Row) :
  map fst (Frame.relabel 0 rows) = range_index (List.length (Frame.relabel 0 rows)).
Proof.
  rewrite relabel_labels, relabel_length. unfold range_index.
  apply map_ext. intros i. f_equal.
Qed.

Lemma mapM_cons {A B : Type} (f : A -> M B) (x : A) (xs : list A) (w : World) :
  mapM f (x :: xs) w =
    match f x w with
    | (Return y, w1) =>
        match mapM f xs w1 with
        | (Return ys, w2) => (Return (y :: ys), w2)
        | (Raise e, w2) => (Raise e, w2)
        end
    | (Raise e, w1) => (Raise e, w1)
    end.
Proof.
  cbn [mapM]. unfold bind, ret.
  destruct (f x w) as [ [ y | e ] w1 ]; [ | reflexivity ].
  now destruct (mapM f xs w1) as [ [ ys | e ] w2 ].
Qed.

Lemma get_all_shows_loop_eq (years : list Z) (all_shows : DataFrame) (w : World) :
  get_all_shows_loop years all_shows w =
    (omap (fun frames => concat_years frames all_shows)
       (fst (mapM (fun year => get_shows_by_year (PInt year)) years w)),
     snd (mapM (fun year => get_shows_by_year (PInt year)) years w)).
Proof.
  revert all_shows w; induction years as [ | year years IH ]; intros all_shows w.
  - reflexivity.
  - cbn [get_all_shows_loop]. rewrite mapM_cons. unfold bind.
    destruct (get_shows_by_year (PInt year) w) as [ [ year_shows | e ] w1 ];
      [ | reflexivity ].
    rewrite IH.
    now destruct (mapM _ years w1) as [ [ frames | e ] w2 ].
Qed.

(** What the concatenations keep: the rows, in their order and each as
    pandas re-typed it, under the labels 0, 1, 2, ... *)
Lemma concat_years_rows (frames : list DataFrame) :
  forall (all_shows : DataFrame) (rows : list Row),
    Forall2 Retyped rows (map snd all_shows) ->
    map fst all_shows = range_index (List.length all_shows) ->
    Forall2 Retyped (rows ++ map snd (List.concat frames))%list
      (map snd (concat_years frames all_shows))
    /\ map fst (concat_years frames all_shows)
       = range_index (List.length (concat_years frames all_shows)).
Proof.
  induction frames as [ | year_shows frames IH ]; intros all_shows rows Hrows Hlabels.
  - cbn. now rewrite app_nil_r.
  - cbn [concat_years fold_left List.concat].
    rewrite map_app, app_assoc.
    apply IH.
    + unfold Frame.concat_ignore_index. cbn [List.concat].
      rewrite relabel_rows, app_nil_r, map_app, map_app.
      apply Forall2_app.
      * clear -Hrows. induction Hrows; cbn; constructor; auto.
        now apply Retyped_concat.
      * clear. induction (map snd year_shows); cbn; constructor; auto.
        apply Retyped_concat, Retyped_same.
    + unfold Frame.concat_ignore_index. apply relabel_range_index.
Qed.

(** With nothing to re-type the rows stay as they are. *)
Lemma concat_years_same (frames : list DataFrame) :
  (forall context row, pd_retype context row = row) ->
  forall all_shows,
    map snd (concat_years frames all_shows)
    = (map snd all_shows ++ map snd (List.concat frames))%list.
Proof.
  intros Hsame. induction frames as [ | year_shows frames IH ]; intros all_shows.
  - cbn. now rewrite app_nil_r.
  - cbn [concat_years fold_left List.concat]. fold (concat_years frames).
    rewrite IH. unfold Frame.concat_ignore_index. cbn [List.concat].
    rewrite relabel_rows, app_nil_r, map_app.
    rewrite (map_ext _ (fun row => row)) by (intros; apply Hsame).
    now rewrite map_id, map_app, <- app_assoc.
Qed.

Lemma py_range_In (start stop y : Z) :
  In y (py_range start stop) <-> start <= y < stop.
Proof.
  unfold py_range. rewrite in_map_iff. split.
  - intros (i & <- & Hi). apply in_seq in Hi. lia.
  - intros H. exists (Z.to_nat (y - start)). split; [ lia | ].
    apply in_seq. lia.
Qed.

Lemma py_range_nth (start stop : Z) (i : nat) (y : Z) :
  nth_error (py_range start stop) i = Some y -> y = start + Z.of_nat i.
Proof.
  unfold py_range. rewrite nth_error_map.
  destruct (nth_error (seq 0 (Z.to_nat (stop - start))) i) as [ j | ] eqn:Hj;
    cbn; [ | discriminate ].
  intros [= <-].
  assert (Hi : (i < List.length (seq 0 (Z.to_nat (stop - start))))%nat)
    by (apply nth_error_Some; now rewrite Hj).
  rewrite length_seq in Hi.
  apply nth_error_nth with (d := O) in Hj.
  rewrite seq_nth in Hj by exact Hi. now subst.
Qed.

(** C5.  [get_all_shows] calls [get_shows_by_year] for the years 1983,
    1984, ... up to and including the current year, in that order, and an
    exception of one of the calls ends it.  When all return, the frame it
    returns holds the rows of the frames of the years, the rows of an
    earlier year before those of a later one and each in its place, under
    the fresh index 0, 1, 2, ...: each row as the concatenations re-typed
    its cells, and as it was when pandas has nothing to re-type. *)
Theorem get_all_shows_concat (w : World) :
  let years := py_range 1983 (now_year + 1) in
  let fetched := mapM (fun year => get_shows_by_year (PInt year)) years w in
  snd (get_all_shows w) = snd fetched
  /\ (forall e, fst fetched = Raise e -> fst (get_all_shows w) = Raise e)
  /\ (forall frames,
        fst fetched = Return frames ->
        exists all_shows,
          fst (get_all_shows w) = Return all_shows
          /\ List.length frames = List.length years
          /\ map fst all_shows
             = map (fun i => LInt (Z.of_nat i))
                 (seq 0 (List.length (List.concat frames)))
          /\ Forall2 Retyped (map snd (List.concat frames)) (map snd all_shows)
          /\ ((forall context row, pd_retype context row = row) ->
              map snd all_shows = map snd (List.concat frames)))
  /\ (forall year, In year years <-> 1983 <= year <= now_year)
  /\ (forall i year, nth_error years i = Some year -> year = 1983 + Z.of_nat i).
Proof.
  cbn zeta. unfold get_all_shows. cbn zeta. rewrite get_all_shows_loop_eq.
  cbn [fst snd].
  split; [ reflexivity | ]. split; [ | split; [ | split ] ].
  - now intros e ->.
  - intros frames Hf. rewrite Hf. cbn [omap].
    exists (concat_years frames Frame.new). split; [ reflexivity | ].
    destruct (concat_years_rows frames Frame.new [])
      as (Hrows & Hlabels); [ constructor | reflexivity | ].
    cbn [app] in Hrows.
    assert (Hlen : List.length (concat_years frames Frame.new)
                   = List.length (List.concat frames)).
    { apply Forall2_length in Hrows. now rewrite !length_map in Hrows. }
    split; [ | split; [ | split ] ].
    + clear -Hf. revert w frames Hf.
      induction (py_range 1983 (now_year + 1)) as [ | year years IH ];
        intros w frames Hf.
      * cbn in Hf. now injection Hf as <-.
      * rewrite mapM_cons in Hf.
        destruct (get_shows_by_year (PInt year) w) as [ [ y | e ] w1 ];
          [ | discriminate ].
        destruct (mapM _ years w1) as [ [ ys | e ] w2 ] eqn:Hm;
          [ | discriminate ].
        injection Hf as <-. cbn. f_equal. apply (IH w1).
        now rewrite Hm.
    + rewrite Hlabels, Hlen. reflexivity.
    + exact Hrows.
    + intros Hsame. now rewrite (concat_years_same frames Hsame).
  - intros year. rewrite py_range_In. lia.
  - intros i year. apply py_range_nth.
Qed.

(** ** All the setlists *)

Lemma traverse_cons_inv {A B : Type} (f : A -> outcome B) (x : A) (xs : list A)
    (ys : list B) :
  traverse f (x :: xs) = Return ys ->
  exists y ys', f x = Return y /\ traverse f xs = Return ys' /\ ys = y :: ys'.
Proof.
  cbn. destruct (f x) as [ y | e ]; cbn; [ | discriminate ].
  destruct (traverse f xs) as [ ys' | e ]; cbn; [ | discriminate ].
  intros [= <-]. eauto.
Qed.

Lemma mapM_cons_inv {A B : Type} (f : A -> M B) (x : A) (xs : list A)
    (ys : list B) (w w' : World) :
  mapM f (x :: xs) w = (Return ys, w') ->
  exists y ys' w1,
    f x w = (Return y, w1) /\ mapM f xs w1 = (Return ys', w') /\ ys = y :: ys'.
Proof.
  rewrite mapM_cons. destruct (f x w) as [ [ y | e ] w1 ]; [ | discriminate ].
  destruct (mapM f xs w1) as [ [ ys' | e ] w2 ] eqn:Hxs; [ | discriminate ].
  intros [= <- <-]. exists y, ys', w1. repeat split. exact Hxs.
Qed.

(** The loop on rows whose setlists all arrive and all clean up. *)
Lemma get_all_setlists_loop_eq (all_shows : DataFrame) (rows : list (Label * Row)) :
  forall (showids : list pyval) (setlists cleaned : list DataFrame)
         (all_setlists : DataFrame) (null_setlists : list pyval) (w w' : World),
    traverse (fun row => Frame.getattr all_shows (snd row) "showid") rows
      = Return showids ->
    mapM get_setlist showids w = (Return setlists, w') ->
    traverse add_setlistdata_clean (kept setlists) = Return cleaned ->
    get_all_setlists_loop all_shows rows all_setlists null_setlists w
      = (Return ((all_setlists ++ List.concat cleaned)%list,
                 (null_setlists ++ skipped showids setlists)%list), w').
Proof.
  induction rows as [ | row rows IH ];
    intros showids setlists cleaned all_setlists null_setlists w w' Hids Hget Hclean.
  - injection Hids as <-. injection Hget as <- <-. injection Hclean as <-.
    cbn. unfold ret. now rewrite !app_nil_r.
  - apply traverse_cons_inv in Hids as (showid & showids' & Hid & Hids & ->).
    apply mapM_cons_inv in Hget as (setlist & setlists' & w1 & Hs & Hget & ->).
    cbn beta in Hid.
    cbn [get_all_setlists_loop]. unfold bind at 1, lift at 1. rewrite Hid.
    unfold bind at 1. rewrite Hs.
    unfold kept in Hclean. cbn [filter] in Hclean. unfold skipped. cbn [combine filter snd].
    destruct (Frame.empty setlist); cbn [negb] in Hclean.
    + unfold bind, lift; cbn beta iota.
      rewrite (IH _ _ _ _ _ _ _ Hids Hget Hclean).
      cbn [map fst]. unfold skipped. now rewrite <- app_assoc.
    + apply traverse_cons_inv in Hclean as (c & cs & Hc & Hclean & ->).
      unfold bind, lift; cbn beta iota. rewrite Hc.
      rewrite (IH _ _ _ _ _ _ _ Hids Hget Hclean).
      unfold Frame.append. cbn [List.concat]. now rewrite <- app_assoc.
Qed.

(** What a run of fetches leaves alone, and what it sends. *)
Lemma mapM_get_setlist_frame (showids : list pyval) :
  forall (w w' : World) (setlists : list DataFrame),
    mapM get_setlist showids w = (Return setlists, w') ->
    null_setlists (self w') = null_setlists (self w)
    /\ printed w' = printed w
    /\ sent w' = (sent w ++ map (setlist_request (self w)) showids)%list
    /\ List.length setlists = List.length showids.
Proof.
  induction showids as [ | showid showids IH ]; intros w w' setlists H.
  - injection H as <- <-. cbn. now rewrite app_nil_r.
  - apply mapM_cons_inv in H as (setlist & setlists' & w1 & Hs & H & ->).
    assert (Hw1 : w1 = snd (get_setlist showid w)) by (now rewrite Hs).
    rewrite get_setlist_run in Hw1. cbn [snd] in Hw1.
    destruct (world_after_frame (GetSetlist showid)
                (response_to (GetSetlist showid) w) w) as (Hk & Hb & Hn & Hp & Hsent).
    rewrite <- Hw1 in Hk, Hb, Hn, Hp, Hsent.
    destruct (IH _ _ _ H) as (Hn' & Hp' & Hsent' & Hlen).
    repeat split; try congruence.
    + rewrite Hsent', Hsent. cbn [map request_of].
      rewrite <- app_assoc. cbn [app]. unfold setlist_request.
      now rewrite Hk, Hb.
    + cbn. now rewrite Hlen.
Qed.

Lemma get_all_setlists_eq (all_shows : DataFrame) (w w' : World)
    (showids : list pyval) (setlists cleaned : list DataFrame) :
  showids_of all_shows = Return showids ->
  mapM get_setlist showids w = (Return setlists, w') ->
  traverse add_setlistdata_clean (kept setlists) = Return cleaned ->
  get_all_setlists all_shows w
    = (Return (List.concat cleaned), record_nulls (skipped showids setlists) w').
Proof.
  intros Hids Hget Hclean. unfold get_all_setlists. cbn zeta. unfold bind at 1.
  rewrite (get_all_setlists_loop_eq _ _ _ _ _ Frame.new [] _ _ Hids Hget Hclean).
  cbn [app Frame.new fst snd].
  destruct (skipped showids setlists) as [ | showid nulls ]; reflexivity.
Qed.

(** C4.  When every row of [all_shows] has a show id, every fetch
    returns and the clean-up of every non-empty setlist succeeds,
    [get_all_setlists] sends one setlist request per row, with the show id
    of the row and in the order of the rows; the shows whose setlist came
    back empty are left out of the result and their ids collected, in
    order, for [null_setlists]; and the frame returned holds the rows of
    the non-empty setlists, each with its cleaned column, one setlist
    after the other. *)
Theorem get_all_setlists_skips_empty (all_shows : DataFrame) (w w' : World)
    (showids : list pyval) (setlists cleaned : list DataFrame) :
  showids_of all_shows = Return showids ->
  mapM get_setlist showids w = (Return setlists, w') ->
  traverse add_setlistdata_clean (kept setlists) = Return cleaned ->
  let nulls := skipped showids setlists in
  let after := snd (get_all_setlists all_shows w) in
  fst (get_all_setlists all_shows w) = Return (List.concat cleaned)
  /\ sent after = (sent w ++ map (setlist_request (self w)) showids)%list
  /\ List.length setlists = List.length showids
  /\ List.length cleaned = List.length (kept setlists)
  /\ (nulls <> [] -> null_setlists (self after) = Some nulls)
  /\ (forall showid setlist,
        In (showid, setlist) (combine showids setlists) ->
        (Frame.empty setlist = true -> In showid nulls)
        /\ (In setlist (kept setlists) <-> Frame.empty setlist = false)).
Proof.
  intros Hids Hget Hclean nulls after. unfold after.
  rewrite (get_all_setlists_eq _ _ _ _ _ _ Hids Hget Hclean). cbn [fst snd].
  destruct (mapM_get_setlist_frame _ _ _ _ Hget) as (Hn & Hp & Hsent & Hlen).
  split; [ reflexivity | ]. split; [ | split; [ exact Hlen | split; [ | split ] ] ].
  - fold nulls. now destruct nulls.
  - clear -Hclean. revert cleaned Hclean.
    induction (kept setlists) as [ | s ss IH ]; intros cleaned H.
    + now injection H as <-.
    + apply traverse_cons_inv in H as (c & cs & _ & H & ->).
      cbn. now rewrite (IH _ H).
  - fold nulls. destruct nulls; [ congruence | reflexivity ].
  - intros showid setlist Hin. split.
    + intros He. unfold nulls, skipped.
      apply in_map_iff. exists (showid, setlist). split; [ reflexivity | ].
      apply filter_In. now split.
    + unfold kept. rewrite filter_In, negb_true_iff. split.
      * now intros [_ H].
      * intros H. split; [ | exact H ]. exact (in_combine_r _ _ _ _ Hin).
Qed.

(** ** The attribute [null_setlists] *)

Lemma skipped_nil (showids : list pyval) (setlists : list DataFrame) :
  List.length setlists = List.length showids ->
  (skipped showids setlists = []
   <-> forallb (fun setlist => negb (Frame.empty setlist)) setlists = true).
Proof.
  revert setlists; induction showids as [ | showid showids IH ];
    intros [ | setlist setlists ] Hlen; try discriminate.
  - split; reflexivity.
  - injection Hlen as Hlen. specialize (IH _ Hlen).
    unfold skipped in *. cbn [combine filter snd forallb].
    destruct (Frame.empty setlist); cbn [negb andb map].
    + split; discriminate.
    + exact IH.
Qed.

Lemma get_all_setlists_loop_frame (all_shows : DataFrame) (rows : list (Label * Row)) :
  forall (all_setlists : DataFrame) (nulls : list pyval) (w : World),
    null_setlists
      (self (snd (get_all_setlists_loop all_shows rows all_setlists nulls w)))
    = null_setlists (self w).
Proof.
  induction rows as [ | row rows IH ]; intros all_setlists nulls w; [ reflexivity | ].
  cbn [get_all_setlists_loop]. unfold bind at 1, lift at 1.
  destruct (Frame.getattr all_shows (snd row) "showid") as [ showid | e ];
    [ | reflexivity ].
  unfold bind at 1.
  rewrite get_setlist_run.
  destruct (world_after_frame (GetSetlist showid)
              (response_to (GetSetlist showid) w) w) as (_ & _ & Hn & _).
  destruct (setlist_outcome (response_to (GetSetlist showid) w))
    as [ setlist | e ]; [ | exact Hn ].
  destruct (Frame.empty setlist); unfold bind, lift; cbn beta iota.
  - now rewrite IH.
  - destruct (add_setlistdata_clean setlist); [ now rewrite IH | exact Hn ].
Qed.

(** C10.  [get_all_setlists] assigns [null_setlists] only at its end and
    only with a show skipped: when it returns and some fetched setlist was
    empty, the attribute holds the ids of the shows skipped; when it
    returns and every fetched setlist was non-empty, or when it raises, the
    attribute is what it was before the call, unset if it was unset. *)
Theorem null_setlists_assigned (all_shows : DataFrame) (w : World) :
  let after := snd (get_all_setlists all_shows w) in
  (forall (w' : World) (showids : list pyval) (setlists cleaned : list DataFrame),
      showids_of all_shows = Return showids ->
      mapM get_setlist showids w = (Return setlists, w') ->
      traverse add_setlistdata_clean (kept setlists) = Return cleaned ->
      (forallb (fun setlist => negb (Frame.empty setlist)) setlists = true ->
         null_setlists (self after) = null_setlists (self w))
      /\ (forallb (fun setlist => negb (Frame.empty setlist)) setlists = false ->
         skipped showids setlists <> []
         /\ null_setlists (self after) = Some (skipped showids setlists)))
  /\ (forall e, fst (get_all_setlists all_shows w) = Raise e ->
        null_setlists (self after) = null_setlists (self w)).
Proof.
  cbn zeta. split.
  - intros w' showids setlists cleaned Hids Hget Hclean.
    rewrite (get_all_setlists_eq _ _ _ _ _ _ Hids Hget Hclean). cbn [snd].
    destruct (mapM_get_setlist_frame _ _ _ _ Hget) as (Hn & _ & _ & Hlen).
    pose proof (skipped_nil _ _ Hlen) as Hnil.
    split; intros Hall.
    + apply Hnil in Hall. now rewrite Hall.
    + assert (Hne : skipped showids setlists <> []).
      { intros H. apply Hnil in H. congruence. }
      split; [ exact Hne | ].
      now destruct (skipped showids setlists).
  - intros e. unfold get_all_setlists. cbn zeta. unfold bind.
    pose proof (get_all_setlists_loop_frame all_shows (Frame.iterrows all_shows)
                  Frame.new [] w) as Hn.
    destruct (get_all_setlists_loop _ _ _ _ w) as [ [ [ frames nulls ] | e' ] w1 ];
      cbn [fst snd] in *.
    + destruct (0 <? Z.of_nat (List.length nulls)); cbn; discriminate.
    + intros _. exact Hn.
Qed.

(** * Further properties of the wrapper *)

(** ** What a call saves and what it leaves *)

(** X1.  Every endpoint method assigns [endpoint_] before it sends its
    request and [url_] and [query_string_] before it checks the response:
    whatever the call ends in, [endpoint_] is the base URL followed by the
    path of the method; once a response has arrived, also when the call
    then raises, the two texts are those of that response; when the
    request itself raises, they are what they were. *)
Theorem attributes_saved_before_checks (m : endpoint_method) (w : World) :
  let o := self w in
  let o' := self (snd (call m w)) in
  endpoint_ o' = Some (_base_url o ++ endpoint_path m)
  /\ (forall r, response_to m w = Return r ->
        url_ o' = Some (masked_url o r)
        /\ query_string_ o'
           = Some (masked_query_string o (_base_url o ++ endpoint_path m) r))
  /\ (forall e, response_to m w = Raise e ->
        fst (call m w) = Raise e
        /\ url_ o' = url_ o /\ query_string_ o' = query_string_ o).
Proof.
  cbn zeta. rewrite call_eq. cbn [fst snd].
  assert (Hs : self (world_after m (response_to m w) w)
               = self (saved (request_of (self w) m) (response_to m w) w)).
  { destruct m; cbn; try reflexivity.
    unfold warn_when. now destruct (shows_cutoff _) as [ [ | ] | ]. }
  rewrite Hs. unfold saved.
  split; [ | split ].
  - destruct m; now destruct (response_to _ w).
  - intros r ->. destruct m; cbn; split; reflexivity.
  - intros e ->. destruct m; cbn; repeat split.
Qed.

(** X2.  An endpoint method never touches the key, the base URL, the request
    limit, [has_api_key] or [null_setlists], and prints nothing; only
    [get_shows_by_year] can add to the warnings, and it adds at most its
    one warning. *)
Theorem call_frame (m : endpoint_method) (w : World) :
  let w' := snd (call m w) in
  _api_key (self w') = _api_key (self w)
  /\ _base_url (self w') = _base_url (self w)
  /\ _request_limit (self w') = _request_limit (self w)
  /\ has_api_key (self w') = has_api_key (self w)
  /\ null_setlists (self w') = null_setlists (self w)
  /\ printed w' = printed w
  /\ match m with
     | GetShowsByYear year =>
         warned w' = warned w
         \/ warned w' = (warned w ++ [cutoff_warning (format year)])%list
     | _ => warned w' = warned w
     end.
Proof.
  cbn zeta. rewrite call_eq. cbn [snd].
  destruct m; cbn; unfold warn_when, saved;
    try destruct (shows_cutoff _) as [ [ | ] | ? ];
    destruct (response_to _ w); cbn; repeat split; auto.
Qed.

(** ** The exceptions of a call *)

(** X3.  An [error_code] that is missing, or that is neither a number nor a
    [bool] (a string such as ["0"], [null], a list), counts as an error:
    [None != 0] and ["0" != 0] hold in Python, so the method raises
    [ResponseError], with the text [None] for a missing code. *)
Theorem error_code_not_a_number_raises
    (m : endpoint_method) (w : World) (r : Response) (body : pydict) (code : pyval) :
  response_to m w = Return r ->
  http_error_code (status_code r) = false ->
  json r = Return (PDict body) ->
  Py.get (PDict body) "error_code" = Return code ->
  is_number code = false ->
  fst (call m w)
  = Raise (ResponseError ("error code " ++ format code ++ ": "
                            ++ format (error_message_of body)))
  /\ (Py.lookup "error_code" body = None -> format code = "None").
Proof.
  intros Hr Hs Hj Hc Hn.
  pose proof (is_ok_response_eq r) as Hok. rewrite Hs in Hok.
  assert (He : _response_has_error r
               = Raise (ResponseError ("error code " ++ format code ++ ": "
                                         ++ format (error_message_of body)))).
  { unfold _response_has_error. rewrite Hj; cbn [obind]. rewrite Hc; cbn [obind].
    replace (Py.ne_zero code) with true by (now destruct code).
    unfold error_message_of, Py.get.
    now destruct (Py.lookup "error_message" body). }
  split.
  - rewrite call_eq, Hr.
    destruct m; cbn; unfold venues_outcome, shows_outcome, shows_cutoff,
      setlist_outcome, checked; cbn; now rewrite Hok, He.
  - intros Hnone. unfold Py.get in Hc. rewrite Hnone in Hc. now injection Hc as <-.
Qed.

(** X4.  Where the exception of a call comes from.  A call that raises ends in
    the exception of [requests.request], in the [HTTPError] of a 4xx or
    5xx status, in the exception of [response.json()], in the
    [AttributeError] of a [.get] on something that is no [dict], in a
    [ResponseError], in the [TypeError] of comparing a count that is no
    number (for [get_shows_by_year] only) or in an exception of
    [pd.DataFrame]; there is no other. *)
Theorem exceptions_of_a_call (m : endpoint_method) (w : World) (e : exn) :
  fst (call m w) = Raise e ->
  response_to m w = Raise e
  \/ exists r,
       response_to m w = Return r
       /\ ((http_error_code (status_code r) = true /\ e = HTTPError (status_code r))
           \/ json r = Raise e
           \/ e = AttributeError "get"
           \/ (exists text, e = ResponseError text)
           \/ (exists year, m = GetShowsByYear year /\ e = TypeError ">=")
           \/ (exists data, pd_DataFrame data = Raise e)).
Proof.
  rewrite call_eq. cbn [fst].
  destruct (response_to m w) as [ r | e' ] eqn:Hr.
  2:{ destruct m; cbn; intros [= ->]; now left. }
  intros H. right. exists r. split; [ reflexivity | ].
  assert (Hchk : forall e0, checked r = Raise e0 ->
            (http_error_code (status_code r) = true /\ e0 = HTTPError (status_code r))
            \/ json r = Raise e0 \/ e0 = AttributeError "get"
            \/ (exists text, e0 = ResponseError text)).
  { intros e0. unfold checked. rewrite is_ok_response_eq.
    destruct (http_error_code (status_code r)); cbn.
    - intros [= <-]. now left.
    - unfold _response_has_error, Py.get.
      destruct (json r) as [ v | e1 ]; cbn; [ | intros [= <-]; now right; left ].
      destruct v; cbn; try (intros [= <-]; now right; right; left).
      destruct (Py.lookup "error_code" d) as [ c | ]; cbn;
        [ destruct (Py.ne_zero c); cbn; [ | discriminate ] | ];
        destruct (Py.lookup "error_message" d); cbn;
        intros [= <-]; right; right; right; eexists; reflexivity. }
  assert (Hfld : forall field e0, response_field r field = Raise e0 ->
            json r = Raise e0 \/ e0 = AttributeError "get").
  { intros field e0. unfold response_field, Py.get.
    destruct (json r) as [ v | e1 ]; cbn; [ | intros [= <-]; now left ].
    destruct v; cbn; try (intros [= <-]; now right).
    destruct (Py.lookup "response" d) as [ [ | | | | | | inner ] | ]; cbn;
      try (intros [= <-]; now right).
    destruct (Py.lookup field inner); discriminate. }
  assert (Hdata : forall (k : DataFrame -> outcome DataFrame),
            (forall df, k df <> Raise e) ->
            (data <~ response_field r "data" ;; venues <~ pd_DataFrame data ;; k venues)
            = Raise e ->
            json r = Raise e \/ e = AttributeError "get"
            \/ exists data, pd_DataFrame data = Raise e).
  { intros k Hk.
    destruct (response_field r "data") as [ data | e1 ] eqn:Hd; cbn.
    - destruct (pd_DataFrame data) as [ df | e2 ] eqn:Hp; cbn.
      + intros Hke. now destruct (Hk df).
      + intros [= <-]. right; right. now exists data.
    - intros [= <-]. destruct (Hfld _ _ Hd); auto. }
  destruct m; cbn in H; unfold venues_outcome, shows_outcome, shows_cutoff,
    setlist_outcome in H; cbn in H.
  - destruct (checked r) as [ [] | e1 ] eqn:Hc; cbn in H.
    + destruct (Hdata (fun df => Return (transpose df))) as [ | [ | ] ];
        try discriminate; auto 8.
    + injection H as ->. destruct (Hchk _ eq_refl) as [ | [ | [ | ] ] ]; auto 8.
  - destruct (checked r) as [ [] | e1 ] eqn:Hc; cbn in H.
    + destruct (response_field r "count") as [ count | e1 ] eqn:Hcount; cbn in H.
      * destruct (Py.ge_300 count) as [ b | e1 ] eqn:Hge; cbn in H.
        -- destruct (Hdata (fun df => Return df)) as [ | [ | ] ];
             try discriminate; auto 8.
           destruct (response_field r "data"); cbn in *; [ | exact H ].
           now destruct (pd_DataFrame a).
        -- injection H as ->. right; right; right; right; left.
           exists year. split; [ reflexivity | ].
           destruct count; cbn in Hge; congruence.
      * injection H as ->. destruct (Hfld _ _ Hcount); auto.
    + injection H as ->. destruct (Hchk _ eq_refl) as [ | [ | [ | ] ] ]; auto 8.
  - destruct (checked r) as [ [] | e1 ] eqn:Hc; cbn in H.
    + destruct (Hdata (fun df => Return df)) as [ | [ | ] ];
        try discriminate; auto 8.
      destruct (response_field r "data"); cbn in *; [ | exact H ].
      now destruct (pd_DataFrame a).
    + injection H as ->. destruct (Hchk _ eq_refl) as [ | [ | [ | ] ] ]; auto 8.
Qed.

(** X5.  A response that passes the status check but whose body is not what
    the methods expect.  A body that is not JSON ends the call with the
    exception of [response.json()]; a JSON body that is not an object, and
    an error-free object whose [response] is missing or is not an object
    itself, end it with the [AttributeError] of a [.get] on a value
    without that method. *)
Theorem malformed_body_raises (m : endpoint_method) (w : World) (r : Response) :
  response_to m w = Return r ->
  http_error_code (status_code r) = false ->
  (forall e, json r = Raise e -> fst (call m w) = Raise e)
  /\ (forall v, json r = Return v -> (forall d, v <> PDict d) ->
        fst (call m w) = Raise (AttributeError "get"))
  /\ (forall body code,
        json r = Return (PDict body) ->
        Py.lookup "error_code" body = Some code ->
        Py.ne_zero code = false ->
        (forall inner, Py.lookup "response" body <> Some (PDict inner)) ->
        fst (call m w) = Raise (AttributeError "get")).
Proof.
  intros Hr Hs.
  pose proof (is_ok_response_eq r) as Hok. rewrite Hs in Hok.
  rewrite call_eq, Hr. cbn [fst].
  split; [ | split ].
  - intros e Hj.
    destruct m; cbn; unfold venues_outcome, shows_outcome, shows_cutoff,
      setlist_outcome, checked, _response_has_error; cbn;
      now rewrite Hok, Hj.
  - intros v Hj Hv.
    destruct m; cbn; unfold venues_outcome, shows_outcome, shows_cutoff,
      setlist_outcome, checked, _response_has_error; cbn;
      rewrite Hok, Hj; cbn;
      destruct v; try reflexivity; now destruct (Hv d).
  - intros body code Hj Hc Hz Hresp.
    pose proof (response_has_error_eq r body code Hj Hc) as He. rewrite Hz in He.
    assert (Hfld : forall field,
               response_field r field = Raise (AttributeError "get")).
    { intros field. unfold response_field. rewrite Hj; cbn.
      destruct (Py.lookup "response" body) as [ [ | | | | | | inner ] | ];
        try reflexivity.
      now destruct (Hresp inner). }
    destruct m; cbn; unfold venues_outcome, shows_outcome, shows_cutoff,
      setlist_outcome, checked; cbn; rewrite Hok, He; cbn; now rewrite Hfld.
Qed.

(** X6.  [get_shows_by_year] compares [response.count] with 300 before it
    builds the frame: on an error-free response whose count is missing or
    is not a number the call ends in a [TypeError], with no warning and no
    frame, whatever the data. *)
Theorem count_not_a_number_raises
    (year : pyval) (w : World) (r : Response) (inner : pydict) (count : pyval) :
  response_to (GetShowsByYear year) w = Return r ->
  error_free r inner ->
  Py.get (PDict inner) "count" = Return count ->
  is_number count = false ->
  fst (get_shows_by_year year w) = Raise (TypeError ">=")
  /\ warned (snd (get_shows_by_year year w)) = warned w.
Proof.
  intros Hr Hf Hcount Hn.
  pose proof (checked_error_free r inner Hf) as Hc.
  rewrite get_shows_by_year_run, Hr; cbn.
  unfold shows_outcome, shows_cutoff; cbn.
  rewrite Hc, (response_field_error_free r inner "count" Hf), Hcount; cbn.
  destruct count; try discriminate; cbn; split; reflexivity.
Qed.

(** X7.  The warning of [get_shows_by_year] is issued only after both checks
    have passed, and only for a count of at least 300: a call that ends in
    [HTTPError] or [ResponseError] warns of nothing, however many shows the
    body reports. *)
Theorem warning_only_after_checks (year : pyval) (w : World) :
  let w' := snd (get_shows_by_year year w) in
  warned w' = warned w
  \/ (warned w' = (warned w ++ [cutoff_warning (format year)])%list
      /\ exists r count,
           response_to (GetShowsByYear year) w = Return r
           /\ _is_ok_response r = Return tt
           /\ _response_has_error r = Return tt
           /\ response_field r "count" = Return count
           /\ Py.ge_300 count = Return true).
Proof.
  cbn zeta. rewrite get_shows_by_year_run. cbn [snd world_after].
  unfold warn_when, shows_cutoff, checked.
  destruct (response_to (GetShowsByYear year) w) as [ r | e ]; cbn; [ | now left ].
  destruct (_is_ok_response r) as [ [] | e ] eqn:Hok; cbn; [ | now left ].
  destruct (_response_has_error r) as [ [] | e ] eqn:Herr; cbn; [ | now left ].
  destruct (response_field r "count") as [ count | e ] eqn:Hcount; cbn;
    [ | now left ].
  destruct (Py.ge_300 count) as [ [ | ] | e ] eqn:Hge; cbn; try (now left).
  right. split; [ reflexivity | ]. exists r, count. now repeat split.
Qed.

(** ** [get_all_shows] at its edges *)

Lemma py_range_empty (start stop : Z) : stop <= start -> py_range start stop = [].
Proof.
  intros H. unfold py_range.
  replace (Z.to_nat (stop - start)) with O by lia. reflexivity.
Qed.

(** X8.  With a clock that reads a year before 1983 the range of years is
    empty: [get_all_shows] sends nothing and returns the empty frame. *)
Theorem get_all_shows_before_1983 (w : World) :
  now_year < 1983 ->
  get_all_shows w = (Return Frame.new, w).
Proof.
  intros H. unfold get_all_shows. cbn zeta.
  rewrite py_range_empty by lia. reflexivity.
Qed.

(** A run of calls that all return leaves the key and the base URL alone
    and sends one request a year. *)
Lemma mapM_get_shows_frame (years : list Z) :
  forall (w w' : World) (frames : list DataFrame),
    mapM (fun year => get_shows_by_year (PInt year)) years w = (Return frames, w') ->
    _api_key (self w') = _api_key (self w)
    /\ _base_url (self w') = _base_url (self w)
    /\ sent w'
       = (sent w ++ map (fun year => shows_request (self w) (PInt year)) years)%list.
Proof.
  induction years as [ | year years IH ]; intros w w' frames H.
  - injection H as <- <-. cbn. now rewrite app_nil_r.
  - apply mapM_cons_inv in H as (frame & frames' & w1 & Hs & H & ->).
    assert (Hw1 : w1 = snd (get_shows_by_year (PInt year) w)) by (now rewrite Hs).
    rewrite get_shows_by_year_run in Hw1. cbn [snd] in Hw1.
    destruct (world_after_frame (GetShowsByYear (PInt year))
                (response_to (GetShowsByYear (PInt year)) w) w)
      as (Hk & Hb & _ & _ & Hsent).
    rewrite <- Hw1 in Hk, Hb, Hsent.
    destruct (IH _ _ _ H) as (Hk' & Hb' & Hsent').
    repeat split; try congruence.
    rewrite Hsent', Hsent. cbn [map request_of].
    rewrite <- app_assoc. cbn [app]. unfold shows_request.
    now rewrite Hk, Hb.
Qed.

Lemma mapM_raise_at {A B : Type} (f : A -> M B) (before : list A) :
  forall (x : A) (after : list A) (ys : list B) (w w1 w2 : World) (e : exn),
    mapM f before w = (Return ys, w1) ->
    f x w1 = (Raise e, w2) ->
    mapM f (before ++ x :: after) w = (Raise e, w2).
Proof.
  induction before as [ | b before IH ]; intros x after ys w w1 w2 e Hb Hx.
  - injection Hb as <- <-. cbn [app]. rewrite mapM_cons. now rewrite Hx.
  - apply mapM_cons_inv in Hb as (y & ys' & w0 & Hy & Hb & ->).
    cbn [app]. rewrite mapM_cons, Hy. now rewrite (IH _ _ _ _ _ _ _ Hb Hx).
Qed.

(** X9.  No recovery from a failed year.  When the call for one year raises,
    after the years before it were fetched, [get_all_shows] ends in that
    exception: the frames of the earlier years are dropped, and no request
    goes out for a later year. *)
Theorem get_all_shows_fails_fast
    (w w1 w2 : World) (before after : list Z) (year : Z)
    (frames : list DataFrame) (e : exn) :
  py_range 1983 (now_year + 1) = (before ++ year :: after)%list ->
  mapM (fun y => get_shows_by_year (PInt y)) before w = (Return frames, w1) ->
  get_shows_by_year (PInt year) w1 = (Raise e, w2) ->
  get_all_shows w = (Raise e, w2)
  /\ sent w2
     = (sent w ++ map (fun y => shows_request (self w) (PInt y)) (before ++ [year]))%list.
Proof.
  intros Hyears Hbefore Hyear. split.
  - unfold get_all_shows. cbn zeta.
    rewrite get_all_shows_loop_eq, Hyears.
    now rewrite (mapM_raise_at _ _ _ _ _ _ _ _ _ Hbefore Hyear).
  - destruct (mapM_get_shows_frame _ _ _ _ Hbefore) as (Hk & Hb & Hsent).
    assert (Hw2 : w2 = snd (get_shows_by_year (PInt year) w1)) by (now rewrite Hyear).
    rewrite get_shows_by_year_run in Hw2. cbn [snd] in Hw2.
    destruct (world_after_frame (GetShowsByYear (PInt year))
                (response_to (GetShowsByYear (PInt year)) w1) w1)
      as (_ & _ & _ & _ & Hsent2).
    rewrite <- Hw2 in Hsent2. rewrite Hsent2, Hsent, map_app, <- app_assoc.
    cbn [map request_of]. unfold shows_request. now rewrite Hk, Hb.
Qed.

(** ** [get_all_setlists] at its edges *)

(** X10.  A frame of shows without a [showid] column.  With no row there is
    nothing to do: the empty frame comes back.  With a row, reading
    [row[1].showid] raises [AttributeError] before any request is sent.
    Either way nothing has changed. *)
Theorem get_all_setlists_without_showid (all_shows : DataFrame) (w : World) :
  Frame.has_column (LStr "showid") all_shows = false ->
  get_all_setlists all_shows w
  = match all_shows with
    | [] => (Return Frame.new, w)
    | _ :: _ => (Raise (AttributeError "showid"), w)
    end.
Proof.
  intros H. unfold get_all_setlists. cbn zeta. unfold bind at 1.
  destruct all_shows as [ | row rows ]; [ reflexivity | ].
  cbn [Frame.iterrows get_all_setlists_loop]. unfold bind at 1, lift at 1.
  unfold Frame.getattr. now rewrite H.
Qed.

(** The loop through a first stretch of rows whose setlists all arrive
    and clean up, with the rows that follow still to do. *)
Lemma get_all_setlists_loop_app (all_shows : DataFrame) (before : list (Label * Row)) :
  forall (rest : list (Label * Row)) (showids : list pyval)
         (setlists cleaned : list DataFrame)
         (all_setlists : DataFrame) (null_setlists : list pyval) (w w' : World),
    traverse (fun row => Frame.getattr all_shows (snd row) "showid") before
      = Return showids ->
    mapM get_setlist showids w = (Return setlists, w') ->
    traverse add_setlistdata_clean (kept setlists) = Return cleaned ->
    get_all_setlists_loop all_shows (before ++ rest) all_setlists null_setlists w
    = get_all_setlists_loop all_shows rest
        (all_setlists ++ List.concat cleaned)%list
        (null_setlists ++ skipped showids setlists)%list w'.
Proof.
  induction before as [ | row rows IH ];
    intros rest showids setlists cleaned all_setlists null_setlists w w'
      Hids Hget Hclean.
  - injection Hids as <-. injection Hget as <- <-. injection Hclean as <-.
    cbn. now rewrite !app_nil_r.
  - apply traverse_cons_inv in Hids as (showid & showids' & Hid & Hids & ->).
    apply mapM_cons_inv in Hget as (setlist & setlists' & w1 & Hs & Hget & ->).
    cbn beta in Hid.
    cbn [app get_all_setlists_loop]. unfold bind at 1, lift at 1. rewrite Hid.
    unfold bind at 1. rewrite Hs.
    unfold kept in Hclean. cbn [filter] in Hclean. unfold skipped.
    cbn [combine filter snd].
    destruct (Frame.empty setlist); cbn [negb] in Hclean.
    + unfold bind, lift; cbn beta iota.
      rewrite (IH _ _ _ _ _ _ _ _ Hids Hget Hclean).
      cbn [map fst]. unfold skipped. now rewrite <- app_assoc.
    + apply traverse_cons_inv in Hclean as (c & cs & Hc & Hclean & ->).
      unfold bind, lift; cbn beta iota. rewrite Hc.
      rewrite (IH _ _ _ _ _ _ _ _ Hids Hget Hclean).
      unfold Frame.append. cbn [List.concat]. now rewrite <- app_assoc.
Qed.

(** X11.  No recovery from a failed show.  After a first stretch of rows went
    through, a fetch that raises, or a setlist whose clean-up raises, ends
    [get_all_setlists] in that exception at once: the setlists gathered
    so far are dropped, the ids of the shows skipped so far are not saved
    in [null_setlists], nothing is printed and the rows that follow are
    not fetched.  A setlist with rows and columns but no column
    [setlistdata] is such a case: it ends the call in a [KeyError]. *)
Theorem get_all_setlists_fails_fast
    (all_shows : DataFrame) (before after : list (Label * Row)) (row : Label * Row)
    (showids : list pyval) (showid : pyval) (setlists cleaned : list DataFrame)
    (w w1 : World) :
  Frame.iterrows all_shows = (before ++ row :: after)%list ->
  traverse (fun row => Frame.getattr all_shows (snd row) "showid") before
    = Return showids ->
  mapM get_setlist showids w = (Return setlists, w1) ->
  traverse add_setlistdata_clean (kept setlists) = Return cleaned ->
  Frame.getattr all_shows (snd row) "showid" = Return showid ->
  let w2 := snd (get_setlist showid w1) in
  (forall e, fst (get_setlist showid w1) = Raise e ->
     get_all_setlists all_shows w = (Raise e, w2))
  /\ (forall setlist e,
        fst (get_setlist showid w1) = Return setlist ->
        Frame.empty setlist = false ->
        add_setlistdata_clean setlist = Raise e ->
        get_all_setlists all_shows w = (Raise e, w2))
  /\ (forall setlist,
        fst (get_setlist showid w1) = Return setlist ->
        Frame.empty setlist = false ->
        Frame.has_column (LStr "setlistdata") setlist = false ->
        get_all_setlists all_shows w = (Raise (KeyError "setlistdata"), w2))
  /\ null_setlists (self w2) = null_setlists (self w)
  /\ printed w2 = printed w
  /\ sent w2 = (sent w ++ map (setlist_request (self w)) (showids ++ [showid]))%list.
Proof.
  intros Hrows Hids Hget Hclean Hid w2.
  assert (Hloop : forall all_setlists nulls,
            get_all_setlists_loop all_shows (row :: after) all_setlists nulls w1
            = match fst (get_setlist showid w1) with
              | Raise e => (Raise e, w2)
              | Return setlist =>
                  if Frame.empty setlist
                  then get_all_setlists_loop all_shows after all_setlists
                         (nulls ++ [showid])%list w2
                  else match add_setlistdata_clean setlist with
                       | Raise e => (Raise e, w2)
                       | Return c =>
                           get_all_setlists_loop all_shows after
                             (Frame.append all_setlists c) nulls w2
                       end
              end).
  { intros all_setlists nulls. unfold w2.
    cbn [get_all_setlists_loop]. unfold bind at 1, lift at 1. rewrite Hid.
    unfold bind at 1.
    destruct (get_setlist showid w1) as [ [ setlist | e ] w' ]; cbn [fst snd];
      [ | reflexivity ].
    destruct (Frame.empty setlist); unfold bind, lift; cbn beta iota.
    - reflexivity.
    - now destruct (add_setlistdata_clean setlist). }
  assert (Hrun : forall e,
            get_all_setlists_loop all_shows (row :: after)
              (Frame.new ++ List.concat cleaned)%list
              ([] ++ skipped showids setlists)%list w1 = (Raise e, w2) ->
            get_all_setlists all_shows w = (Raise e, w2)).
  { intros e H. unfold get_all_setlists. cbn zeta. unfold bind at 1.
    now rewrite Hrows, (get_all_setlists_loop_app _ _ _ _ _ _ _ _ _ _ Hids Hget Hclean), H. }
  assert (Hclean_raise : forall setlist e,
            fst (get_setlist showid w1) = Return setlist ->
            Frame.empty setlist = false ->
            add_setlistdata_clean setlist = Raise e ->
            get_all_setlists all_shows w = (Raise e, w2)).
  { intros setlist e Hs He Hc. apply Hrun. now rewrite Hloop, Hs, He, Hc. }
  split; [ | split; [ exact Hclean_raise | split ] ].
  - intros e He. apply Hrun. now rewrite Hloop, He.
  - intros setlist Hs He Hcol. apply (Hclean_raise setlist); try assumption.
    unfold add_setlistdata_clean, Frame.getcolumn. now rewrite Hcol.
  - destruct (mapM_get_setlist_frame _ _ _ _ Hget) as (Hn & Hp & Hsent & _).
    unfold w2. rewrite get_setlist_run. cbn [snd].
    destruct (world_after_frame (GetSetlist showid)
                (response_to (GetSetlist showid) w1) w1)
      as (_ & _ & Hn2 & Hp2 & Hsent2).
    rewrite Hn2, Hp2, Hsent2, Hn, Hp, Hsent, map_app, <- app_assoc.
    repeat split. cbn [map request_of]. unfold setlist_request.
    assert (Hkb : _api_key (self w1) = _api_key (self w)
                  /\ _base_url (self w1) = _base_url (self w)).
    { clear -Hget. revert w w1 setlists Hget.
      induction showids as [ | s showids IH ]; intros w w1 setlists Hget.
      - injection Hget as _ <-. now split.
      - apply mapM_cons_inv in Hget as (y & ys & w0 & Hy & Hget & _).
        destruct (IH _ _ _ Hget) as (-> & ->).
        assert (Hw0 : w0 = snd (get_setlist s w)) by (now rewrite Hy).
        rewrite get_setlist_run in Hw0. cbn [snd] in Hw0. subst w0.
        destruct (world_after_frame (GetSetlist s)
                    (response_to (GetSetlist s) w) w) as (Hk & Hb & _).
        now split. }
    destruct Hkb as (-> & ->). reflexivity.
Qed.

(** ** The cleaned column *)

Lemma label_eqb_eq (a b : Label) : Frame.label_eqb a b = true <-> a = b.
Proof.
  destruct a, b; cbn; try (split; discriminate).
  - rewrite Z.eqb_eq. split; congruence.
  - rewrite String.eqb_eq. split; congruence.
Qed.

Lemma row_lookup_set_same (c : Label) (v : pyval) (r : Row) :
  Frame.row_lookup c (Frame.row_set c v r) = Some v.
Proof.
  induction r as [ | [k v'] r IH ]; cbn.
  - now rewrite (proj2 (label_eqb_eq c c) eq_refl).
  - destruct (Frame.label_eqb k c) eqn:Hk; cbn; now rewrite Hk.
Qed.

Lemma row_lookup_set_other (c c' : Label) (v : pyval) (r : Row) :
  c' <> c -> Frame.row_lookup c' (Frame.row_set c v r) = Frame.row_lookup c' r.
Proof.
  intros Hne. induction r as [ | [k v'] r IH ]; cbn.
  - destruct (Frame.label_eqb c c') eqn:H; [ | reflexivity ].
    apply label_eqb_eq in H. congruence.
  - destruct (Frame.label_eqb k c) eqn:Hk; cbn.
    + apply label_eqb_eq in Hk as ->.
      destruct (Frame.label_eqb c c') eqn:H; [ | reflexivity ].
      apply label_eqb_eq in H. congruence.
    + now rewrite IH.
Qed.

(** X12.  What the clean-up does to a setlist: it needs the column
    [setlistdata]; it keeps the rows, their order and their labels; each
    row gets under [setlistdata_clean] what [parse_setlist_field] made of
    its [setlistdata] cell ([NaN] where the row has none); and no other
    cell changes. *)
Theorem cleaned_column_added (setlist cleaned : DataFrame) :
  add_setlistdata_clean setlist = Return cleaned ->
  Frame.has_column (LStr "setlistdata") setlist = true
  /\ map fst cleaned = map fst setlist
  /\ Forall2
       (fun old new =>
          (exists v,
              parse_setlist_field (Frame.cell (LStr "setlistdata") (snd old))
                = Return v
              /\ Frame.row_lookup (LStr "setlistdata_clean") (snd new) = Some v)
          /\ forall c, c <> LStr "setlistdata_clean" ->
                       Frame.row_lookup c (snd new) = Frame.row_lookup c (snd old))
       setlist cleaned.
Proof.
  unfold add_setlistdata_clean, Frame.getcolumn.
  destruct (Frame.has_column (LStr "setlistdata") setlist); [ | discriminate ].
  cbn [obind].
  destruct (Frame.apply parse_setlist_field _) as [ cells | e ] eqn:Hap;
    [ | discriminate ].
  cbn [obind]. intros [= <-]. split; [ reflexivity | ].
  revert cells Hap. induction setlist as [ | [l r] rows IH ]; intros cells Hap.
  - injection Hap as <-. split; constructor.
  - cbn [map Frame.apply snd] in Hap.
    destruct (parse_setlist_field (Frame.cell (LStr "setlistdata") r))
      as [ v | e ] eqn:Hv; [ | discriminate ].
    destruct (Frame.apply parse_setlist_field _) as [ vs | e ] eqn:Hvs;
      [ | discriminate ].
    injection Hap as <-. destruct (IH vs eq_refl) as (Hl & Hrows).
    cbn [Frame.setcolumn map fst]. split; [ now rewrite Hl | ].
    constructor; [ | exact Hrows ]. cbn [snd]. split.
    + exists v. split; [ exact Hv | apply row_lookup_set_same ].
    + intros c Hc. now apply row_lookup_set_other.
Qed.

(** ** The notice of [get_all_setlists] *)

(** X13.  When [get_all_setlists] returns, it has printed one line if shows
    were skipped, a line that gives their number, and nothing if none
    was; the shows skipped are as many as the empty frames fetched. *)
Theorem get_all_setlists_notice (all_shows : DataFrame) (w w' : World)
    (showids : list pyval) (setlists cleaned : list DataFrame) :
  showids_of all_shows = Return showids ->
  mapM get_setlist showids w = (Return setlists, w') ->
  traverse add_setlistdata_clean (kept setlists) = Return cleaned ->
  let after := snd (get_all_setlists all_shows w) in
  let n := List.length (skipped showids setlists) in
  printed after
  = (printed w
       ++ match n with
          | O => []
          | S _ => [null_setlists_notice n]
          end)%list
  /\ n = List.length (filter Frame.empty setlists).
Proof.
  intros Hids Hget Hclean. cbn zeta.
  rewrite (get_all_setlists_eq _ _ _ _ _ _ Hids Hget Hclean). cbn [snd].
  destruct (mapM_get_setlist_frame _ _ _ _ Hget) as (_ & Hp & _ & Hlen).
  split.
  - unfold record_nulls.
    destruct (skipped showids setlists) as [ | s l ]; cbn [List.length printed].
    + now rewrite app_nil_r.
    + now rewrite Hp.
  - clear -Hlen. unfold skipped. rewrite length_map.
    revert setlists Hlen. induction showids as [ | s showids IH ];
      intros [ | setlist setlists ] Hlen; try discriminate; [ reflexivity | ].
    injection Hlen as Hlen. cbn [combine filter snd].
    destruct (Frame.empty setlist); cbn [List.length]; now rewrite (IH _ Hlen).
Qed.

(** ** The key in the saved URL, over any program *)

Lemma call_keeps_key_hidden (m : endpoint_method) (w : World) :
  maskable (_api_key (self w)) = true ->
  key_hidden (self w) ->
  _api_key (self (snd (call m w))) = _api_key (self w)
  /\ key_hidden (self (snd (call m w))).
Proof.
  intros Hm Hh. apply andb_true_iff in Hm as [Hne Hd].
  apply negb_true_iff, String.eqb_neq in Hne.
  rewrite call_eq. cbn [snd].
  assert (Hs : self (world_after m (response_to m w) w)
               = self (saved (request_of (self w) m) (response_to m w) w)).
  { destruct m; cbn; try reflexivity.
    unfold warn_when. now destruct (shows_cutoff _) as [ [ | ] | ]. }
  rewrite Hs. unfold saved, key_hidden.
  destruct (response_to m w) as [ r | e ]; cbn; split; try reflexivity.
  - intros text [= <-]. now apply str_replace_masks.
  - exact Hh.
Qed.

Lemma keeps_bind {A B : Type} (action : M A) (k : A -> M B) :
  keeps_key_hidden action -> (forall a, keeps_key_hidden (k a)) ->
  keeps_key_hidden (bind action k).
Proof.
  intros Ha Hk w Hm Hh. unfold bind.
  destruct (Ha w Hm Hh) as (Hkey & Hh').
  destruct (action w) as [ [ a | e ] w1 ]; cbn [snd] in *; [ | now split ].
  rewrite <- Hkey in Hm |- *. now apply Hk.
Qed.

Lemma keeps_lift {A : Type} (o : outcome A) : keeps_key_hidden (lift o).
Proof. intros w Hm Hh. now split. Qed.

Lemma keeps_ret {A : Type} (a : A) : keeps_key_hidden (ret a).
Proof. intros w Hm Hh. now split. Qed.

Lemma keeps_get_all_shows_loop (years : list Z) :
  forall all_shows, keeps_key_hidden (get_all_shows_loop years all_shows).
Proof.
  induction years as [ | year years IH ]; intros all_shows.
  - apply keeps_ret.
  - cbn [get_all_shows_loop]. apply keeps_bind.
    + exact (call_keeps_key_hidden (GetShowsByYear (PInt year))).
    + intros year_shows. apply IH.
Qed.

Lemma keeps_get_all_setlists_loop (all_shows : DataFrame) (rows : list (Label * Row)) :
  forall all_setlists nulls,
    keeps_key_hidden (get_all_setlists_loop all_shows rows all_setlists nulls).
Proof.
  induction rows as [ | row rows IH ]; intros all_setlists nulls.
  - apply keeps_ret.
  - cbn [get_all_setlists_loop]. apply keeps_bind; [ apply keeps_lift | ].
    intros showid. apply keeps_bind.
    + exact (call_keeps_key_hidden (GetSetlist showid)).
    + intros setlist. destruct (Frame.empty setlist).
      * apply keeps_bind; [ apply keeps_lift | ]. intros s. apply IH.
      * apply keeps_bind; [ apply keeps_lift | ]. intros s. apply IH.
Qed.

Lemma keeps_invoke (p : public_method) : keeps_key_hidden (invoke p).
Proof.
  destruct p as [ m | | all_shows ]; cbn [invoke].
  - exact (call_keeps_key_hidden m).
  - apply keeps_get_all_shows_loop.
  - unfold get_all_setlists. cbn zeta. apply keeps_bind.
    + apply keeps_get_all_setlists_loop.
    + intros acc. apply keeps_bind; [ | intros; apply keeps_ret ].
      destruct (0 <? Z.of_nat (List.length (snd acc))); [ | apply keeps_ret ].
      apply keeps_bind; intros; intros w Hm Hh; now split.
Qed.

(** X14.  The invariant the masking is there for.  On an object constructed
    with a key that is not empty and shares no character with
    ['<<apikey>>'], whatever public methods are then called, in whatever
    order, with whatever answers of the network and whether they return or
    raise, the saved [url_] never shows the key, and the key is what it
    was. *)
Theorem key_hidden_after_any_program
    (environ : string -> option string) (o : PhishNetAPI)
    (program : list public_method) :
  __init__ environ = Return o ->
  maskable (_api_key o) = true ->
  let w := run_all program (mkWorld o [] [] []) in
  _api_key (self w) = _api_key o
  /\ environ "PHISH_API_KEY" = Some (_api_key o)
  /\ forall text, url_ (self w) = Some text ->
                  PyStr.contains (_api_key o) text = false.
Proof.
  intros Hinit Hm. cbn zeta.
  assert (Hh : key_hidden (self (mkWorld o [] [] []))).
  { unfold __init__ in Hinit. destruct (environ "PHISH_API_KEY"); [ | discriminate ].
    injection Hinit as <-. intros text H. discriminate H. }
  assert (Henv : environ "PHISH_API_KEY" = Some (_api_key o)).
  { unfold __init__ in Hinit. destruct (environ "PHISH_API_KEY"); [ | discriminate ].
    now injection Hinit as <-. }
  assert (Hgen : forall w0,
            maskable (_api_key (self w0)) = true -> key_hidden (self w0) ->
            _api_key (self (run_all program w0)) = _api_key (self w0)
            /\ key_hidden (self (run_all program w0))).
  { induction program as [ | p program IH ]; intros w0 Hm0 Hh0; [ now split | ].
    cbn [run_all fold_left].
    destruct (keeps_invoke p w0 Hm0 Hh0) as (Hk1 & Hh1).
    rewrite <- Hk1 in Hm0 |- *. now apply IH. }
  destruct (Hgen (mkWorld o [] [] []) Hm Hh) as (Hk & Hfinal).
  cbn [self] in Hk. split; [ exact Hk | split; [ exact Henv | ] ].
  intros text Htext. unfold key_hidden in Hfinal. rewrite <- Hk. now apply Hfinal.
Qed.

(** ** The saved texts for the URLs that occur *)

Lemma self_after_call (m : endpoint_method) (w : World) :
  self (snd (call m w))
  = self (saved (request_of (self w) m) (response_to m w) w).
Proof.
  rewrite call_eq. cbn [snd]. destruct m; cbn; try reflexivity.
  unfold warn_when. now destruct (shows_cutoff _) as [ [ | ] | ].
Qed.

Lemma request_url_eq (o : PhishNetAPI) (m : endpoint_method) :
  req_url (request_of o m) = _base_url o ++ endpoint_path m.
Proof. now destruct m. Qed.

(** X15.  The masking needs the key to be in the URL as it is in the
    environment.  When the URL of the response does not contain the key
    (the URL was redirected, or [requests] percent-encoded a key with
    reserved characters), [url_] is that URL, unchanged. *)
Theorem url_without_key_saved_as_is (m : endpoint_method) (w : World) (r : Response) :
  response_to m w = Return r ->
  _api_key (self w) <> "" ->
  PyStr.contains (_api_key (self w)) (url r) = false ->
  url_ (self (snd (call m w))) = Some (url r)
  /\ query_string_ (self (snd (call m w)))
     = Some (PyStr.str_replace (_base_url (self w) ++ endpoint_path m) "" (url r)).
Proof.
  intros Hr Hne Hc. rewrite self_after_call, Hr. unfold saved. cbn.
  unfold masked_query_string, masked_url. rewrite request_url_eq.
  assert (Hsame : PyStr.str_replace (_api_key (self w)) mask (url r) = url r).
  { unfold PyStr.str_replace. destruct (_api_key (self w)); [ congruence | ].
    now apply scan_absent. }
  now rewrite Hsame.
Qed.

(** Up to the first match the scan copies. *)
Lemma scan_past (k new e rest : string) :
  starts_in k e rest = false ->
  PyStr.replace_scan k new O (e ++ rest) = e ++ PyStr.replace_scan k new O rest.
Proof.
  induction e as [ | c e IH ]; intros H; [ reflexivity | ].
  cbn [starts_in] in H. apply orb_false_iff in H as [Hs He].
  cbn [append] in *. cbn [PyStr.replace_scan]. rewrite Hs. now rewrite (IH He).
Qed.

(** X16.  The URL [requests] builds is the endpoint followed by the query
    string.  For such a URL, when no occurrence of the key begins inside
    the endpoint and the masked query string does not contain the
    endpoint, [url_] is the endpoint followed by the query string with the
    key masked, and [query_string_] is that masked query string. *)
Theorem query_string_of_built_url
    (m : endpoint_method) (w : World) (r : Response) (query : string) :
  let key := _api_key (self w) in
  let endpoint := _base_url (self w) ++ endpoint_path m in
  response_to m w = Return r ->
  key <> "" ->
  url r = endpoint ++ query ->
  starts_in key endpoint query = false ->
  PyStr.contains endpoint (PyStr.str_replace key mask query) = false ->
  url_ (self (snd (call m w))) = Some (endpoint ++ PyStr.str_replace key mask query)
  /\ query_string_ (self (snd (call m w))) = Some (PyStr.str_replace key mask query).
Proof.
  cbn zeta. intros Hr Hne Hurl Hin Hout.
  rewrite self_after_call, Hr. unfold saved. cbn.
  unfold masked_query_string, masked_url. rewrite request_url_eq, Hurl.
  assert (Hmasked :
            PyStr.str_replace (_api_key (self w)) mask
              ((_base_url (self w) ++ endpoint_path m) ++ query)
            = (_base_url (self w) ++ endpoint_path m)
                ++ PyStr.str_replace (_api_key (self w)) mask query).
  { unfold PyStr.str_replace in *. destruct (_api_key (self w)); [ congruence | ].
    now apply scan_past. }
  rewrite Hmasked. split; [ reflexivity | ]. f_equal.
  pose proof (request_url_nonempty (self w) m) as He. rewrite request_url_eq in He.
  destruct (_base_url (self w) ++ endpoint_path m) as [ | c e ]; [ congruence | ].
  unfold PyStr.str_replace at 1. rewrite scan_leading. cbn [append].
  now apply scan_absent.
Qed.

(** ** What [get_all_shows] sends and how it labels the rows *)

(** X17.  A call of [get_all_shows] that returns has sent one request a year,
    from 1983 to the current year in this order and all with the same key:
    as many requests as there are years, whatever [_request_limit] says. *)
Theorem get_all_shows_requests (w : World) (all_shows : DataFrame) :
  fst (get_all_shows w) = Return all_shows ->
  let years := py_range 1983 (now_year + 1) in
  sent (snd (get_all_shows w))
  = (sent w ++ map (fun year => shows_request (self w) (PInt year)) years)%list
  /\ List.length years = Z.to_nat (now_year - 1982)
  /\ _request_limit (self (snd (get_all_shows w))) = _request_limit (self w).
Proof.
  cbn zeta. unfold get_all_shows. cbn zeta.
  rewrite get_all_shows_loop_eq. cbn [fst snd].
  destruct (mapM _ (py_range 1983 (now_year + 1)) w) as [ [ frames | e ] w' ] eqn:Hm;
    cbn [fst snd omap]; [ | discriminate ].
  intros _. split; [ | split ].
  - now destruct (mapM_get_shows_frame _ _ _ _ Hm) as (_ & _ & Hsent).
  - unfold py_range. rewrite length_map, length_seq. f_equal. lia.
  - clear -Hm. revert w w' frames Hm.
    induction (py_range 1983 (now_year + 1)) as [ | year years IH ];
      intros w w' frames Hm.
    + now injection Hm as _ <-.
    + apply mapM_cons_inv in Hm as (frame & frames' & w1 & Hs & Hm & _).
      rewrite (IH _ _ _ Hm).
      assert (Hw1 : w1 = snd (get_shows_by_year (PInt year) w)) by (now rewrite Hs).
      rewrite get_shows_by_year_eq in Hw1. cbn [snd] in Hw1. subst w1.
      unfold warn_when, saved.
      destruct (shows_cutoff _) as [ [ | ] | ];
        now destruct (requests_request _ _).
Qed.

(** X18.  The frame [get_all_shows] returns has the index 0, 1, 2, ...: the
    row at position [i] carries the label [i], whatever labels the frames
    of the years had. *)
Theorem get_all_shows_index (w : World) (all_shows : DataFrame) :
  fst (get_all_shows w) = Return all_shows ->
  forall i label row,
    nth_error all_shows i = Some (label, row) -> label = LInt (Z.of_nat i).
Proof.
  unfold get_all_shows. cbn zeta.
  rewrite get_all_shows_loop_eq. cbn [fst].
  destruct (fst (mapM _ _ w)) as [ frames | e ]; cbn [omap]; [ | discriminate ].
  intros [= <-] i label row H.
  destruct (concat_years_rows frames Frame.new [])
    as (_ & Hlabels); [ constructor | reflexivity | ].
  apply (f_equal (option_map fst)) in H. rewrite <- nth_error_map, Hlabels in H.
  unfold range_index in H. rewrite nth_error_map in H. cbn [option_map fst] in H.
  destruct (nth_error (seq 0 _) i) as [ j | ] eqn:Hj; [ | discriminate ].
  injection H as <-.
  assert (Hi : (i < List.length (seq 0 (List.length (concat_years frames Frame.new))))%nat)
    by (apply nth_error_Some; now rewrite Hj).
  rewrite length_seq in Hi.
  apply nth_error_nth with (d := O) in Hj.
  rewrite seq_nth in Hj by exact Hi. now subst.
Qed.

(** ** The labels of the rows [get_all_setlists] returns *)

Lemma add_setlistdata_clean_labels (setlist cleaned : DataFrame) :
  add_setlistdata_clean setlist = Return cleaned -> map fst cleaned = map fst setlist.
Proof.
  unfold add_setlistdata_clean.
  destruct (Frame.getcolumn setlist "setlistdata") as [ column | e ];
    [ | discriminate ].
  cbn [obind].
  destruct (Frame.apply parse_setlist_field column) as [ cells | e ];
    [ | discriminate ].
  cbn [obind]. intros [= <-]. clear column.
  revert cells. induction setlist as [ | [l r] rows IH ]; intros cells.
  - now destruct cells.
  - destruct cells as [ | v cells ]; [ reflexivity | ].
    cbn [Frame.setcolumn map fst]. now rewrite IH.
Qed.

(** X19.  [get_all_setlists] appends without [ignore_index]: every row it
    returns keeps the label it had in the setlist it came from, so that
    setlists that each start at label 0 give a frame in which the label 0
    occurs once per setlist. *)
Theorem get_all_setlists_keeps_labels (all_shows : DataFrame) (w w' : World)
    (showids : list pyval) (setlists cleaned : list DataFrame)
    (all_setlists : DataFrame) :
  showids_of all_shows = Return showids ->
  mapM get_setlist showids w = (Return setlists, w') ->
  traverse add_setlistdata_clean (kept setlists) = Return cleaned ->
  fst (get_all_setlists all_shows w) = Return all_setlists ->
  map fst all_setlists = List.concat (map (map fst) (kept setlists))
  /\ List.length all_setlists
     = list_sum (map (fun setlist => List.length setlist) (kept setlists)).
Proof.
  intros Hids Hget Hclean.
  rewrite (get_all_setlists_eq _ _ _ _ _ _ Hids Hget Hclean). cbn [fst].
  intros [= <-]. clear -Hclean. revert cleaned Hclean.
  induction (kept setlists) as [ | s ss IH ]; intros cleaned H.
  - injection H as <-. now split.
  - apply traverse_cons_inv in H as (c & cs & Hc & H & ->).
    destruct (IH _ H) as (Hl & Hn). cbn [List.concat map list_sum].
    rewrite map_app, length_app, Hl, Hn.
    pose proof (add_setlistdata_clean_labels _ _ Hc) as Hcl.
    rewrite Hcl. split; [ reflexivity | ].
    cbn [list_sum]. now rewrite <- (length_map fst c), Hcl, length_map.
Qed.

(** ** An empty key *)

(** X20.  A variable [PHISH_API_KEY] that is set but empty is a key for the
    constructor: the object is made, with [has_api_key] [True].  Every
    call then sends the empty key and saves as [url_] the URL of the
    response with ['<<apikey>>'] before each of its characters and after
    the last one. *)
Theorem empty_key_is_accepted
    (environ : string -> option string) (m : endpoint_method) (w : World)
    (r : Response) :
  environ "PHISH_API_KEY" = Some "" ->
  __init__ environ = Return (self w) ->
  response_to m w = Return r ->
  has_api_key (self w) = true
  /\ Py.lookup "apikey" (req_params (request_of (self w) m)) = Some (PStr "")
  /\ url_ (self (snd (call m w))) = Some (PyStr.replace_empty mask (url r))
  /\ String.length (PyStr.replace_empty mask (url r))
     = (11 * String.length (url r) + 10)%nat.
Proof.
  intros Henv Hinit Hr. unfold __init__ in Hinit. rewrite Henv in Hinit.
  injection Hinit as Hself.
  assert (Hkey : _api_key (self w) = "") by (now rewrite <- Hself).
  split; [ now rewrite <- Hself | ]. split; [ | split ].
  - destruct m; cbn; now rewrite Hkey.
  - rewrite self_after_call, Hr. unfold saved. cbn.
    unfold masked_url. now rewrite Hkey.
  - induction (url r) as [ | c s IH ]; [ reflexivity | ].
    cbn [PyStr.replace_empty]. unfold mask at 1. cbn [append String.length].
    rewrite IH. lia.
Qed.

End Wrapper.

(** ** The statements on the sample surroundings *)

Lemma sample_frames_raise_no_ResponseError (data : pyval) (text : string) :
  Sample.pd_DataFrame data <> Raise (ResponseError text).
Proof. destruct data; discriminate. Qed.

(** C1, as stated, on a response with status 404 whose body carries
    the error code 2: each method ends in the [HTTPError] of the status
    check, and the [ResponseError] is never raised. *)
Lemma http_error_precedes_ResponseError :
  let net := Sample.answer 404 (Return Sample.invalid_key_body) in
  let w := Sample.world Sample.key in
  Py.get Sample.invalid_key_body "error_code" = Return (PInt 2)
  /\ Py.ne_zero (PInt 2) = true
  /\ fst (get_all_venues net Sample.py_repr Sample.pd_DataFrame Sample.transpose w)
     = Raise (HTTPError 404)
  /\ fst (get_shows_by_year net Sample.py_repr Sample.pd_DataFrame (PInt 1997) w)
     = Raise (HTTPError 404)
  /\ fst (get_setlist net Sample.py_repr Sample.pd_DataFrame (PInt 1) w)
     = Raise (HTTPError 404)
  /\ is_ResponseError (HTTPError 404) = false.
Proof. cbv zeta. repeat split. Qed.

(** C1, amended, on a body with error code 2 and the status 200. *)
Lemma response_error_raised_witness :
  let net := Sample.answer 200 (Return Sample.invalid_key_body) in
  Py.ne_zero (PInt 2) = true
  /\ http_error_code 200 = false
  /\ fst (call net Sample.py_repr Sample.pd_DataFrame Sample.transpose
            GetAllVenues (Sample.world Sample.key))
     = Raise (ResponseError "error code 2: Invalid API key")
  /\ PyStr.contains "2" "error code 2: Invalid API key" = true
  /\ PyStr.contains "Invalid API key" "error code 2: Invalid API key" = true.
Proof.
  split; [ reflexivity | ]. split; [ reflexivity | ].
  destruct (proj1 (response_error_raised
                     (Sample.answer 200 (Return Sample.invalid_key_body))
                     Sample.py_repr Sample.pd_DataFrame Sample.transpose
                     GetAllVenues (Sample.world Sample.key) _ _ (PInt 2)
                     eq_refl eq_refl eq_refl) eq_refl)
    as (_ & Hcode & Hmessage & Hcall & _).
  split; [ exact (Hcall eq_refl) | ]. split; [ exact Hcode | exact Hmessage ].
Defined.

(** C3, as stated, on a response with status 304: the status is no
    success code, [raise_for_status] raises nothing, and the call ends in an
    exception of the wrapper. *)
Lemma not_modified_raises_no_HTTPError :
  let net := Sample.answer 304 (Return Sample.invalid_key_body) in
  let r := mkResponse 304 "https://api.phish.net/v3/venues/all"
             (Return Sample.invalid_key_body) in
  success_code (status_code r) = false
  /\ raise_for_status r = Return tt
  /\ _is_ok_response r = Return tt
  /\ fst (get_all_venues net Sample.py_repr Sample.pd_DataFrame Sample.transpose
            (Sample.world Sample.key))
     = Raise (ResponseError "error code 2: Invalid API key")
  /\ wrapper_defined (ResponseError "error code 2: Invalid API key") = true.
Proof. cbv zeta. repeat split. Qed.

(** C3, amended, on a response with status 404. *)
Lemma http_error_propagates_witness :
  let net := Sample.answer 404 (Return Sample.invalid_key_body) in
  http_error_code 404 = true
  /\ fst (call net Sample.py_repr Sample.pd_DataFrame Sample.transpose
            (GetSetlist (PInt 1)) (Sample.world Sample.key))
     = Raise (HTTPError 404).
Proof.
  split; [ reflexivity | ].
  destruct (proj1 (http_error_propagates
                     (Sample.answer 404 (Return Sample.invalid_key_body))
                     Sample.py_repr Sample.pd_DataFrame Sample.transpose
                     (GetSetlist (PInt 1)) (Sample.world Sample.key) _ eq_refl)
              eq_refl) as (e & Hraise & Hcall & _).
  cbv in Hraise. injection Hraise as <-. exact Hcall.
Defined.

(** C7, as stated, on two successful, error-free responses: one whose
    [response.count] is [null], for which [get_shows_by_year] raises
    though the data would make a frame, and one without [response], for
    which no method has a payload to read. *)
Lemma null_count_returns_no_frame :
  let net := Sample.answer 200 (Return Sample.uncounted_body) in
  let bare := Sample.answer 200 (Return (PDict [("error_code", PInt 0)])) in
  let w := Sample.world Sample.key in
  success_code 200 = true
  /\ Py.get Sample.uncounted_body "error_code" = Return (PInt 0)
  /\ Py.ne_zero (PInt 0) = false
  /\ Sample.pd_DataFrame Sample.shows
     = Return [(LInt 0, Sample.fields (Sample.show 5));
               (LInt 1, Sample.fields (Sample.show 6))]
  /\ fst (get_shows_by_year net Sample.py_repr Sample.pd_DataFrame (PInt 1997) w)
     = Raise (TypeError ">=")
  /\ fst (get_all_venues bare Sample.py_repr Sample.pd_DataFrame Sample.transpose w)
     = Raise (AttributeError "get")
  /\ fst (get_setlist bare Sample.py_repr Sample.pd_DataFrame (PInt 1) w)
     = Raise (AttributeError "get").
Proof. cbv zeta. repeat split. Qed.

(** C7, amended, on the sample venues: one row per venue record. *)
Lemma payload_to_rows_witness :
  let net := Sample.answer 200 (Return Sample.venues_body) in
  fst (get_all_venues net Sample.py_repr Sample.pd_DataFrame Sample.transpose
         (Sample.world Sample.key))
  = Return
      [(LStr "7", [(LStr "venueid", PInt 7); (LStr "name", PStr "The Gorge")]);
       (LStr "9", [(LStr "venueid", PInt 9); (LStr "name", PStr "Hampton Coliseum")])].
Proof.
  refine (proj1 (payload_to_rows
                   (Sample.answer 200 (Return Sample.venues_body))
                   Sample.py_repr Sample.pd_DataFrame Sample.transpose
                   (Sample.world Sample.key) _
                   (Sample.inner (PInt 2) Sample.venues) Sample.venues
                   _ eq_refl) eq_refl).
  split; [ reflexivity | ].
  exists [("error_code", PInt 0); ("error_message", PNone);
          ("response", PDict (Sample.inner (PInt 2) Sample.venues))], (PInt 0).
  repeat split.
Defined.

(** C8 on a year with exactly 300 shows. *)
Lemma cutoff_warning_issued_witness :
  let net := Sample.answer 200 (Return (Sample.shows_body 300)) in
  Py.ge_300 (PInt 300) = Return true
  /\ warned (snd (get_shows_by_year net Sample.py_repr Sample.pd_DataFrame
                    (PInt 1994) (Sample.world Sample.key)))
     = ["The year 1994 has 300 or more shows, this API query is missing data."].
Proof.
  split; [ reflexivity | ].
  refine (proj1 (cutoff_warning_issued
                   (Sample.answer 200 (Return (Sample.shows_body 300)))
                   Sample.py_repr Sample.pd_DataFrame
                   (PInt 1994) (Sample.world Sample.key) _
                   (Sample.inner (PInt 300) Sample.shows) (PInt 300) Sample.shows true
                   eq_refl _ eq_refl eq_refl eq_refl)).
  split; [ reflexivity | ].
  exists [("error_code", PInt 0); ("error_message", PNone);
          ("response", PDict (Sample.inner (PInt 300) Sample.shows))], (PInt 0).
  repeat split.
Defined.


(** C9: a key that ends as the mask begins is shown too, in a URL that
    has the first character of the key before the key. *)
Lemma key_running_into_mask_shows :
  let net := Sample.from "https://api.phish.net/v3/venues/all?apikey=xx<" in
  let after := snd (get_all_venues net Sample.py_repr Sample.pd_DataFrame
                      Sample.transpose (Sample.world "x<")) in
  begins_in_mask "x<" = false
  /\ runs_into_mask "x<" = true
  /\ url_ (self after)
     = Some "https://api.phish.net/v3/venues/all?apikey=x<<apikey>>"
  /\ PyStr.contains "x<"
       "https://api.phish.net/v3/venues/all?apikey=x<<apikey>>" = true.
Proof. cbv zeta. repeat split. Qed.

(** C9: with the endpoint a second time inside the URL, taking the
    endpoint out joins the two halves of a key that the masked URL does
    not show. *)
Lemma query_string_join_shows_key :
  let endpoint := "https://api.phish.net/v3/venues/all" in
  let text := endpoint ++ "?next=se" ++ endpoint ++ "cret" in
  let after := snd (get_all_venues (Sample.from text) Sample.py_repr
                      Sample.pd_DataFrame Sample.transpose
                      (Sample.world "secret")) in
  hideable "secret" = true
  /\ at_most_leading endpoint text = false
  /\ url_ (self after) = Some text
  /\ PyStr.contains "secret" text = false
  /\ query_string_ (self after) = Some "?next=secret"
  /\ PyStr.contains "secret" "?next=secret" = true.
Proof. cbv zeta. repeat split. Qed.


(** C4 on three shows of which the second has no setlist. *)
Lemma get_all_setlists_skips_empty_witness :
  let run := get_all_setlists Sample.setlists Sample.py_repr Sample.pd_DataFrame
               Sample.parse_setlist_field Sample.three_shows
               (Sample.world Sample.key) in
  showids_of Sample.three_shows = Return [PInt 1; PInt 2; PInt 3]
  /\ fst run
     = Return
         [(LInt 0, [(LStr "showid", PInt 1);
                    (LStr "setlistdata", PStr "<p>Tweezer");
                    (LStr "setlistdata_clean", PStr "Tweezer")]);
          (LInt 0, [(LStr "showid", PInt 3);
                    (LStr "setlistdata", PStr "<p>Tweezer");
                    (LStr "setlistdata_clean", PStr "Tweezer")])]
  /\ map req_params (sent (snd run))
     = [[("apikey", PStr Sample.key); ("showid", PInt 1)];
        [("apikey", PStr Sample.key); ("showid", PInt 2)];
        [("apikey", PStr Sample.key); ("showid", PInt 3)]]
  /\ null_setlists (self (snd run)) = Some [PInt 2].
Proof.
  cbv zeta. split; [ reflexivity | ].
  pose (fetched := mapM (get_setlist Sample.setlists Sample.py_repr Sample.pd_DataFrame)
                     [PInt 1; PInt 2; PInt 3] (Sample.world Sample.key)).
  pose (setlists := match fst fetched with Return l => l | Raise _ => [] end).
  pose (cleaned :=
          match traverse (add_setlistdata_clean Sample.parse_setlist_field)
                  (kept setlists) with
          | Return l => l
          | Raise _ => []
          end).
  assert (Hids : showids_of Sample.three_shows = Return [PInt 1; PInt 2; PInt 3])
    by (vm_compute; reflexivity).
  assert (Hget : mapM (get_setlist Sample.setlists Sample.py_repr Sample.pd_DataFrame)
                   [PInt 1; PInt 2; PInt 3] (Sample.world Sample.key)
                 = (Return setlists, snd fetched))
    by (vm_compute; reflexivity).
  assert (Hclean : traverse (add_setlistdata_clean Sample.parse_setlist_field)
                     (kept setlists) = Return cleaned)
    by (vm_compute; reflexivity).
  destruct (get_all_setlists_skips_empty Sample.setlists Sample.py_repr
              Sample.pd_DataFrame Sample.parse_setlist_field Sample.three_shows
              (Sample.world Sample.key) (snd fetched) [PInt 1; PInt 2; PInt 3]
              setlists cleaned Hids Hget Hclean)
    as (Hout & Hsent & _ & _ & Hnulls & _).
  split; [ rewrite Hout; vm_compute; reflexivity | ]. split.
  - rewrite Hsent. vm_compute. reflexivity.
  - rewrite Hnulls; [ vm_compute; reflexivity | vm_compute; discriminate ].
Defined.

(** C10 on shows that all have a setlist: the attribute stays unset. *)
Lemma null_setlists_assigned_witness :
  let run := get_all_setlists Sample.full_setlists Sample.py_repr Sample.pd_DataFrame
               Sample.parse_setlist_field Sample.three_shows
               (Sample.world Sample.key) in
  null_setlists (self (Sample.world Sample.key)) = None
  /\ null_setlists (self (snd run)) = None.
Proof.
  cbv zeta. split; [ reflexivity | ].
  pose (fetched := mapM (get_setlist Sample.full_setlists Sample.py_repr
                           Sample.pd_DataFrame)
                     [PInt 1; PInt 2; PInt 3] (Sample.world Sample.key)).
  pose (setlists := match fst fetched with Return l => l | Raise _ => [] end).
  pose (cleaned :=
          match traverse (add_setlistdata_clean Sample.parse_setlist_field)
                  (kept setlists) with
          | Return l => l
          | Raise _ => []
          end).
  assert (Hids : showids_of Sample.three_shows = Return [PInt 1; PInt 2; PInt 3])
    by (vm_compute; reflexivity).
  assert (Hget : mapM (get_setlist Sample.full_setlists Sample.py_repr
                         Sample.pd_DataFrame)
                   [PInt 1; PInt 2; PInt 3] (Sample.world Sample.key)
                 = (Return setlists, snd fetched))
    by (vm_compute; reflexivity).
  assert (Hclean : traverse (add_setlistdata_clean Sample.parse_setlist_field)
                     (kept setlists) = Return cleaned)
    by (vm_compute; reflexivity).
  assert (Hall : forallb (fun setlist => negb (Frame.empty setlist)) setlists = true)
    by (vm_compute; reflexivity).
  exact (proj1 (proj1 (null_setlists_assigned Sample.full_setlists Sample.py_repr
                         Sample.pd_DataFrame Sample.parse_setlist_field
                         Sample.three_shows (Sample.world Sample.key))
                  (snd fetched) [PInt 1; PInt 2; PInt 3] setlists cleaned
                  Hids Hget Hclean) Hall).
Defined.

(** ** The further properties on the sample surroundings *)

(** X3 on the sample surroundings. *)
Lemma error_code_not_a_number_raises_witness :
  let net := Sample.answer 200 (Return Sample.no_code_body) in
  Py.lookup "error_code"
    [("error_message", PStr "Rate limit");
     ("response", PDict (Sample.inner (PInt 0) PNone))] = None
  /\ fst (call net Sample.py_repr Sample.pd_DataFrame Sample.transpose
            GetAllVenues (Sample.world Sample.key))
     = Raise (ResponseError "error code None: Rate limit").
Proof.
  split; [ reflexivity | ].
  exact (proj1 (error_code_not_a_number_raises
                  (Sample.answer 200 (Return Sample.no_code_body))
                  Sample.py_repr Sample.pd_DataFrame Sample.transpose
                  GetAllVenues (Sample.world Sample.key) _ _ PNone
                  eq_refl eq_refl eq_refl eq_refl eq_refl)).
Defined.

(** X4 on the sample surroundings. *)
Lemma exceptions_of_a_call_witness :
  let net := Sample.answer 503 (Raise JSONDecodeError) in
  fst (call net Sample.py_repr Sample.pd_DataFrame Sample.transpose
         (GetShowsByYear (PInt 1999)) (Sample.world Sample.key))
  = Raise (HTTPError 503)
  /\ (response_to net (GetShowsByYear (PInt 1999)) (Sample.world Sample.key)
      = Raise (HTTPError 503)
      \/ exists r,
           response_to net (GetShowsByYear (PInt 1999)) (Sample.world Sample.key)
           = Return r
           /\ ((http_error_code (status_code r) = true
                /\ HTTPError 503 = HTTPError (status_code r))
               \/ json r = Raise (HTTPError 503)
               \/ HTTPError 503 = AttributeError "get"
               \/ (exists text, HTTPError 503 = ResponseError text)
               \/ (exists year,
                      GetShowsByYear (PInt 1999) = GetShowsByYear year
                      /\ HTTPError 503 = TypeError ">=")
               \/ (exists data, Sample.pd_DataFrame data = Raise (HTTPError 503)))).
Proof.
  cbv zeta.
  assert (H : fst (call (Sample.answer 503 (Raise JSONDecodeError))
                     Sample.py_repr Sample.pd_DataFrame Sample.transpose
                     (GetShowsByYear (PInt 1999)) (Sample.world Sample.key))
              = Raise (HTTPError 503)) by (vm_compute; reflexivity).
  split; [ exact H | ].
  exact (exceptions_of_a_call _ _ _ _ _ _ _ H).
Defined.

(** X5 on the sample surroundings. *)
Lemma malformed_body_raises_witness :
  let net := Sample.answer 200 (Raise JSONDecodeError) in
  http_error_code 200 = false
  /\ fst (call net Sample.py_repr Sample.pd_DataFrame Sample.transpose
            (GetSetlist (PInt 1)) (Sample.world Sample.key))
     = Raise JSONDecodeError.
Proof.
  split; [ reflexivity | ].
  exact (proj1 (malformed_body_raises
                  (Sample.answer 200 (Raise JSONDecodeError))
                  Sample.py_repr Sample.pd_DataFrame Sample.transpose
                  (GetSetlist (PInt 1)) (Sample.world Sample.key) _
                  eq_refl eq_refl) JSONDecodeError eq_refl).
Defined.

(** X6 on the sample surroundings. *)
Lemma count_not_a_number_raises_witness :
  let net := Sample.answer 200 (Return Sample.uncounted_body) in
  is_number PNone = false
  /\ fst (get_shows_by_year net Sample.py_repr Sample.pd_DataFrame
            (PInt 1994) (Sample.world Sample.key))
     = Raise (TypeError ">=")
  /\ warned (snd (get_shows_by_year net Sample.py_repr Sample.pd_DataFrame
                    (PInt 1994) (Sample.world Sample.key))) = [].
Proof.
  split; [ reflexivity | ].
  refine (count_not_a_number_raises
            (Sample.answer 200 (Return Sample.uncounted_body))
            Sample.py_repr Sample.pd_DataFrame
            (PInt 1994) (Sample.world Sample.key) _
            (Sample.inner PNone Sample.shows) PNone
            eq_refl _ eq_refl eq_refl).
  split; [ reflexivity | ].
  exists [("error_code", PInt 0); ("error_message", PNone);
          ("response", PDict (Sample.inner PNone Sample.shows))], (PInt 0).
  repeat split.
Defined.

(** X8 on the sample surroundings. *)
Lemma get_all_shows_before_1983_witness :
  1982 < 1983
  /\ get_all_shows Sample.unreachable Sample.py_repr Sample.pd_DataFrame Sample.pd_retype 1982
       (Sample.world Sample.key)
     = (Return [], Sample.world Sample.key).
Proof.
  split; [ reflexivity | ].
  exact (get_all_shows_before_1983 Sample.unreachable Sample.py_repr
           Sample.pd_DataFrame Sample.pd_retype 1982 (Sample.world Sample.key) eq_refl).
Defined.

(** X9 on the sample surroundings. *)
Lemma get_all_shows_fails_fast_witness :
  let run := get_all_shows (Sample.down_in 1984) Sample.py_repr Sample.pd_DataFrame Sample.pd_retype
               1985 (Sample.world Sample.key) in
  py_range 1983 (1985 + 1) = [1983; 1984; 1985]
  /\ fst run = Raise (RequestException "connection refused")
  /\ map req_params (sent (snd run))
     = [[("apikey", PStr Sample.key); ("year", PInt 1983); ("order", PStr "ASC")];
        [("apikey", PStr Sample.key); ("year", PInt 1984); ("order", PStr "ASC")]].
Proof.
  cbv zeta. split; [ reflexivity | ].
  pose (fetch := fun y => get_shows_by_year (Sample.down_in 1984) Sample.py_repr
                            Sample.pd_DataFrame (PInt y)).
  pose (first := mapM fetch [1983] (Sample.world Sample.key)).
  pose (frames := match fst first with Return l => l | Raise _ => [] end).
  assert (Hyears : py_range 1983 (1985 + 1) = ([1983] ++ 1984 :: [1985])%list)
    by (vm_compute; reflexivity).
  assert (Hbefore : mapM fetch [1983] (Sample.world Sample.key)
                    = (Return frames, snd first))
    by (vm_compute; reflexivity).
  assert (Hyear : fetch 1984 (snd first)
                  = (Raise (RequestException "connection refused"),
                     snd (fetch 1984 (snd first))))
    by (vm_compute; reflexivity).
  destruct (get_all_shows_fails_fast (Sample.down_in 1984) Sample.py_repr
              Sample.pd_DataFrame Sample.pd_retype 1985 (Sample.world Sample.key) (snd first)
              (snd (fetch 1984 (snd first))) [1983] [1985] 1984 frames
              (RequestException "connection refused") Hyears Hbefore Hyear)
    as (Hrun & Hsent).
  rewrite Hrun. cbn [fst snd]. split; [ reflexivity | ].
  rewrite Hsent. vm_compute. reflexivity.
Defined.

(** X10 on the sample surroundings. *)
Lemma get_all_setlists_without_showid_witness :
  Frame.has_column (LStr "showid") Sample.venue_rows = false
  /\ get_all_setlists Sample.setlists Sample.py_repr Sample.pd_DataFrame
       Sample.parse_setlist_field Sample.venue_rows (Sample.world Sample.key)
     = (Raise (AttributeError "showid"), Sample.world Sample.key).
Proof.
  split; [ reflexivity | ].
  exact (get_all_setlists_without_showid Sample.setlists Sample.py_repr
           Sample.pd_DataFrame Sample.parse_setlist_field Sample.venue_rows
           (Sample.world Sample.key) eq_refl).
Defined.

(** X11 on the sample surroundings. *)
Lemma get_all_setlists_fails_fast_witness :
  let run := get_all_setlists Sample.bare_setlists Sample.py_repr Sample.pd_DataFrame
               Sample.parse_setlist_field Sample.three_shows
               (Sample.world Sample.key) in
  fst run = Raise (KeyError "setlistdata")
  /\ null_setlists (self (snd run)) = None
  /\ printed (snd run) = []
  /\ map req_params (sent (snd run))
     = [[("apikey", PStr Sample.key); ("showid", PInt 1)];
        [("apikey", PStr Sample.key); ("showid", PInt 2)]].
Proof.
  cbv zeta.
  pose (fetch := get_setlist Sample.bare_setlists Sample.py_repr Sample.pd_DataFrame).
  pose (first := mapM fetch [PInt 1] (Sample.world Sample.key)).
  pose (setlists := match fst first with Return l => l | Raise _ => [] end).
  pose (cleaned :=
          match traverse (add_setlistdata_clean Sample.parse_setlist_field)
                  (kept setlists) with
          | Return l => l
          | Raise _ => []
          end).
  pose (second := match fst (fetch (PInt 2) (snd first)) with
                  | Return s => s
                  | Raise _ => []
                  end).
  assert (Hrows : Frame.iterrows Sample.three_shows
                  = ([(LInt 0, Sample.fields (Sample.show 1))]
                       ++ (LInt 1, Sample.fields (Sample.show 2))
                       :: [(LInt 2, Sample.fields (Sample.show 3))])%list)
    by (vm_compute; reflexivity).
  assert (Hids : traverse (fun row => Frame.getattr Sample.three_shows (snd row) "showid")
                   [(LInt 0, Sample.fields (Sample.show 1))] = Return [PInt 1])
    by (vm_compute; reflexivity).
  assert (Hget : mapM fetch [PInt 1] (Sample.world Sample.key)
                 = (Return setlists, snd first))
    by (vm_compute; reflexivity).
  assert (Hclean : traverse (add_setlistdata_clean Sample.parse_setlist_field)
                     (kept setlists) = Return cleaned)
    by (vm_compute; reflexivity).
  assert (Hid : Frame.getattr Sample.three_shows
                  (snd (LInt 1, Sample.fields (Sample.show 2))) "showid"
                = Return (PInt 2))
    by (vm_compute; reflexivity).
  destruct (get_all_setlists_fails_fast Sample.bare_setlists Sample.py_repr
              Sample.pd_DataFrame Sample.parse_setlist_field Sample.three_shows
              _ _ _ _ _ _ _ _ _ Hrows Hids Hget Hclean Hid)
    as (_ & _ & Hkey & Hnull & Hprinted & Hsent).
  rewrite (Hkey second) by (vm_compute; reflexivity). cbn [fst snd].
  split; [ reflexivity | ]. split; [ exact Hnull | ]. split; [ exact Hprinted | ].
  rewrite Hsent. vm_compute. reflexivity.
Defined.

(** X12 on the sample surroundings. *)
Lemma cleaned_column_added_witness :
  let setlist := Frame.relabel 0 [Sample.fields (Sample.setlist 1)] in
  add_setlistdata_clean Sample.parse_setlist_field setlist
  = Return [(LInt 0, [(LStr "showid", PInt 1);
                      (LStr "setlistdata", PStr "<p>Tweezer");
                      (LStr "setlistdata_clean", PStr "Tweezer")])]
  /\ Frame.has_column (LStr "setlistdata") setlist = true.
Proof.
  cbv zeta.
  assert (H : add_setlistdata_clean Sample.parse_setlist_field
                (Frame.relabel 0 [Sample.fields (Sample.setlist 1)])
              = Return [(LInt 0, [(LStr "showid", PInt 1);
                                  (LStr "setlistdata", PStr "<p>Tweezer");
                                  (LStr "setlistdata_clean", PStr "Tweezer")])])
    by (vm_compute; reflexivity).
  split; [ exact H | ].
  exact (proj1 (cleaned_column_added Sample.parse_setlist_field _ _ H)).
Defined.

(** X13 on the sample surroundings. *)
Lemma get_all_setlists_notice_witness :
  let run := get_all_setlists Sample.setlists Sample.py_repr Sample.pd_DataFrame
               Sample.parse_setlist_field Sample.three_shows
               (Sample.world Sample.key) in
  showids_of Sample.three_shows = Return [PInt 1; PInt 2; PInt 3]
  /\ printed (snd run)
     = ["There are 1 shows that do NOT have a setlist populated on Phish.net. These showids are save in the null_setlists attribute. "].
Proof.
  cbv zeta. split; [ reflexivity | ].
  pose (fetched := mapM (get_setlist Sample.setlists Sample.py_repr Sample.pd_DataFrame)
                     [PInt 1; PInt 2; PInt 3] (Sample.world Sample.key)).
  pose (setlists := match fst fetched with Return l => l | Raise _ => [] end).
  pose (cleaned :=
          match traverse (add_setlistdata_clean Sample.parse_setlist_field)
                  (kept setlists) with
          | Return l => l
          | Raise _ => []
          end).
  assert (Hids : showids_of Sample.three_shows = Return [PInt 1; PInt 2; PInt 3])
    by (vm_compute; reflexivity).
  assert (Hget : mapM (get_setlist Sample.setlists Sample.py_repr Sample.pd_DataFrame)
                   [PInt 1; PInt 2; PInt 3] (Sample.world Sample.key)
                 = (Return setlists, snd fetched))
    by (vm_compute; reflexivity).
  assert (Hclean : traverse (add_setlistdata_clean Sample.parse_setlist_field)
                     (kept setlists) = Return cleaned)
    by (vm_compute; reflexivity).
  destruct (get_all_setlists_notice Sample.setlists Sample.py_repr
              Sample.pd_DataFrame Sample.parse_setlist_field Sample.three_shows
              (Sample.world Sample.key) (snd fetched) [PInt 1; PInt 2; PInt 3]
              setlists cleaned Hids Hget Hclean) as (Hprinted & _).
  rewrite Hprinted. vm_compute. reflexivity.
Defined.

(** X14 on the sample surroundings. *)
Lemma key_hidden_after_any_program_witness :
  let net := Sample.setlists in
  let program := [Endpoint GetAllVenues; GetAllShows;
                  GetAllSetlists Sample.three_shows;
                  Endpoint (GetSetlist (PInt 2))] in
  let w := run_all net Sample.py_repr Sample.pd_DataFrame Sample.transpose Sample.pd_retype
             Sample.parse_setlist_field 1984 program
             (mkWorld (Sample.api Sample.key) [] [] []) in
  __init__ (Sample.environ (Some Sample.key)) = Return (Sample.api Sample.key)
  /\ maskable Sample.key = true
  /\ url_ (self w)
     = Some "https://api.phish.net/v3/setlists/get?apikey=<<apikey>>&showid=2"
  /\ PyStr.contains Sample.key
       "https://api.phish.net/v3/setlists/get?apikey=<<apikey>>&showid=2" = false.
Proof.
  cbv zeta. split; [ reflexivity | ]. split; [ reflexivity | ].
  assert (Hurl : url_ (self (run_all Sample.setlists Sample.py_repr Sample.pd_DataFrame
                               Sample.transpose Sample.pd_retype Sample.parse_setlist_field 1984
                               [Endpoint GetAllVenues; GetAllShows;
                                GetAllSetlists Sample.three_shows;
                                Endpoint (GetSetlist (PInt 2))]
                               (mkWorld (Sample.api Sample.key) [] [] [])))
                 = Some "https://api.phish.net/v3/setlists/get?apikey=<<apikey>>&showid=2")
    by (vm_compute; reflexivity).
  split; [ exact Hurl | ].
  exact (proj2 (proj2 (key_hidden_after_any_program Sample.setlists Sample.py_repr
                         Sample.pd_DataFrame Sample.transpose Sample.pd_retype
                         Sample.parse_setlist_field 1984
                         (Sample.environ (Some Sample.key)) (Sample.api Sample.key)
                         _ eq_refl eq_refl)) _ Hurl).
Defined.

(** X15 on the sample surroundings. *)
Lemma url_without_key_saved_as_is_witness :
  let after := snd (call Sample.moved Sample.py_repr Sample.pd_DataFrame
                      Sample.transpose GetAllVenues (Sample.world Sample.key)) in
  PyStr.contains Sample.key "https://phish.net/api/venues" = false
  /\ url_ (self after) = Some "https://phish.net/api/venues"
  /\ query_string_ (self after) = Some "https://phish.net/api/venues".
Proof.
  cbv zeta. split; [ reflexivity | ].
  destruct (url_without_key_saved_as_is Sample.moved Sample.py_repr
              Sample.pd_DataFrame Sample.transpose GetAllVenues
              (Sample.world Sample.key) _ eq_refl
              ltac:(discriminate) eq_refl) as (Hurl & Hquery).
  split; [ exact Hurl | ]. rewrite Hquery. vm_compute. reflexivity.
Defined.

(** X16 on the sample surroundings. *)
Lemma query_string_of_built_url_witness :
  let net := Sample.answer 200 (Return (Sample.shows_body 2)) in
  let after := snd (call net Sample.py_repr Sample.pd_DataFrame Sample.transpose
                      (GetShowsByYear (PInt 1997)) (Sample.world Sample.key)) in
  starts_in Sample.key "https://api.phish.net/v3/shows/query/"
    "?apikey=4F1A9C33E2B07D58A6C1&year=1997&order=ASC" = false
  /\ url_ (self after)
     = Some "https://api.phish.net/v3/shows/query/?apikey=<<apikey>>&year=1997&order=ASC"
  /\ query_string_ (self after) = Some "?apikey=<<apikey>>&year=1997&order=ASC".
Proof.
  cbv zeta. split; [ vm_compute; reflexivity | ].
  destruct (query_string_of_built_url
              (Sample.answer 200 (Return (Sample.shows_body 2)))
              Sample.py_repr Sample.pd_DataFrame Sample.transpose
              (GetShowsByYear (PInt 1997)) (Sample.world Sample.key) _
              "?apikey=4F1A9C33E2B07D58A6C1&year=1997&order=ASC"
              eq_refl ltac:(discriminate)
              ltac:(vm_compute; reflexivity) ltac:(vm_compute; reflexivity)
              ltac:(vm_compute; reflexivity)) as (Hurl & Hquery).
  split.
  - rewrite Hurl. vm_compute. reflexivity.
  - rewrite Hquery. vm_compute. reflexivity.
Defined.

(** X17 on the sample surroundings. *)
Lemma get_all_shows_requests_witness :
  let run := get_all_shows (Sample.answer 200 (Return (Sample.shows_body 2)))
               Sample.py_repr Sample.pd_DataFrame Sample.pd_retype 1984
                 (Sample.world Sample.key) in
  map req_params (sent (snd run))
  = [[("apikey", PStr Sample.key); ("year", PInt 1983); ("order", PStr "ASC")];
     [("apikey", PStr Sample.key); ("year", PInt 1984); ("order", PStr "ASC")]]
  /\ List.length (py_range 1983 (1984 + 1)) = 2%nat.
Proof.
  cbv zeta.
  pose (run := get_all_shows (Sample.answer 200 (Return (Sample.shows_body 2)))
                 Sample.py_repr Sample.pd_DataFrame Sample.pd_retype 1984
                 (Sample.world Sample.key)).
  pose (all_shows := match fst run with Return df => df | Raise _ => [] end).
  assert (H : fst run = Return all_shows) by (vm_compute; reflexivity).
  destruct (get_all_shows_requests _ _ _ _ _ _ _ H) as (Hsent & Hlen & _).
  split; [ | exact Hlen ].
  unfold run in Hsent. rewrite Hsent. vm_compute. reflexivity.
Defined.

(** X18 on the sample surroundings. *)
Lemma get_all_shows_index_witness :
  let run := get_all_shows (Sample.answer 200 (Return (Sample.shows_body 2)))
               Sample.py_repr Sample.pd_DataFrame Sample.pd_retype 1984
                 (Sample.world Sample.key) in
  fst run
  = Return [(LInt 0, Sample.fields (Sample.show 5));
            (LInt 1, Sample.fields (Sample.show 6));
            (LInt 2, Sample.fields (Sample.show 5));
            (LInt 3, Sample.fields (Sample.show 6))]
  /\ LInt 3 = LInt (Z.of_nat 3).
Proof.
  cbv zeta.
  assert (H : fst (get_all_shows (Sample.answer 200 (Return (Sample.shows_body 2)))
                     Sample.py_repr Sample.pd_DataFrame Sample.pd_retype 1984
                     (Sample.world Sample.key))
              = Return [(LInt 0, Sample.fields (Sample.show 5));
                        (LInt 1, Sample.fields (Sample.show 6));
                        (LInt 2, Sample.fields (Sample.show 5));
                        (LInt 3, Sample.fields (Sample.show 6))])
    by (vm_compute; reflexivity).
  split; [ exact H | ].
  exact (get_all_shows_index _ _ _ _ _ _ _ H 3%nat (LInt 3)
           (Sample.fields (Sample.show 6)) eq_refl).
Defined.

(** X19 on the sample surroundings. *)
Lemma get_all_setlists_keeps_labels_witness :
  let run := get_all_setlists Sample.setlists Sample.py_repr Sample.pd_DataFrame
               Sample.parse_setlist_field Sample.three_shows
               (Sample.world Sample.key) in
  showids_of Sample.three_shows = Return [PInt 1; PInt 2; PInt 3]
  /\ map fst (match fst run with Return df => df | Raise _ => [] end)
     = [LInt 0; LInt 0].
Proof.
  cbv zeta. split; [ reflexivity | ].
  pose (run := get_all_setlists Sample.setlists Sample.py_repr Sample.pd_DataFrame
                 Sample.parse_setlist_field Sample.three_shows
                 (Sample.world Sample.key)).
  pose (fetched := mapM (get_setlist Sample.setlists Sample.py_repr Sample.pd_DataFrame)
                     [PInt 1; PInt 2; PInt 3] (Sample.world Sample.key)).
  pose (setlists := match fst fetched with Return l => l | Raise _ => [] end).
  pose (cleaned :=
          match traverse (add_setlistdata_clean Sample.parse_setlist_field)
                  (kept setlists) with
          | Return l => l
          | Raise _ => []
          end).
  assert (Hids : showids_of Sample.three_shows = Return [PInt 1; PInt 2; PInt 3])
    by (vm_compute; reflexivity).
  assert (Hget : mapM (get_setlist Sample.setlists Sample.py_repr Sample.pd_DataFrame)
                   [PInt 1; PInt 2; PInt 3] (Sample.world Sample.key)
                 = (Return setlists, snd fetched))
    by (vm_compute; reflexivity).
  assert (Hclean : traverse (add_setlistdata_clean Sample.parse_setlist_field)
                     (kept setlists) = Return cleaned)
    by (vm_compute; reflexivity).
  pose (result := match fst run with Return df => df | Raise _ => [] end).
  assert (Hrun : fst run = Return result) by (vm_compute; reflexivity).
  destruct (get_all_setlists_keeps_labels Sample.setlists Sample.py_repr
              Sample.pd_DataFrame Sample.parse_setlist_field Sample.three_shows
              (Sample.world Sample.key) (snd fetched) [PInt 1; PInt 2; PInt 3]
              setlists cleaned result Hids Hget Hclean Hrun) as (Hlabels & _).
  change (map fst result = [LInt 0; LInt 0]).
  rewrite Hlabels. vm_compute. reflexivity.
Defined.

(** X20 on the sample surroundings. *)
Lemma empty_key_is_accepted_witness :
  let net := Sample.moved in
  Sample.environ (Some "") "PHISH_API_KEY" = Some ""
  /\ __init__ (Sample.environ (Some "")) = Return (Sample.api "")
  /\ has_api_key (Sample.api "") = true
  /\ String.length (PyStr.replace_empty mask "https://phish.net/api/venues")
     = (11 * 28 + 10)%nat.
Proof.
  cbv zeta. split; [ reflexivity | ]. split; [ reflexivity | ].
  destruct (empty_key_is_accepted Sample.moved Sample.py_repr Sample.pd_DataFrame
              Sample.transpose (Sample.environ (Some "")) GetAllVenues
              (Sample.world "") _ eq_refl eq_refl eq_refl)
    as (Hhas & _ & _ & Hlen).
  split; [ exact Hhas | exact Hlen ].
Defined.
